(** * OSINT search engine: the client-side orchestrator of [Javascript/os-int.js]

    The development embeds the class [OSINTEngine] (its search loop, the
    per-platform search, the result formatters, statistics and input
    validation) together with the part of the Express server that answers
    [POST /api/search/:platform], and proves properties of the search run.

    Conventions.
    - A JavaScript string is a Rocq [string]; a character is a code unit
      below 256.
    - An asynchronous method is modelled by its sequential behaviour: one
      run of [performSearch] at a time on an engine instance.  Awaited
      promises that reject are exceptions of the awaiting code.
    - Everything outside the engine (network, clock) is a [World], indexed by
      the number of calls made so far, so that two calls with the same
      arguments may be answered differently.
    - The browser page is a [Document] holding the two elements that
      [updateProgress] looks up. *)

From Stdlib Require Import String Ascii List ZArith QArith Lia Bool Arith.
From Stdlib Require Import DecimalString Sorted.
Import ListNotations.

Close Scope Q_scope.
Open Scope nat_scope.
Open Scope string_scope.

(** ** Completions: a statement or call either returns or throws an [Error]
    whose [message] is recorded. *)

Inductive Completion (A : Type) : Type :=
| Normal (a : A)
| Throw (message : string).

Arguments Normal {A} a.
Arguments Throw {A} message.

Definition and_then {A B} (c : Completion A) (k : A -> Completion B) : Completion B :=
  match c with
  | Normal a => k a
  | Throw message => Throw message
  end.

Declare Scope completion_scope.
Delimit Scope completion_scope with completion.
Notation "'let*' x ':=' c 'in' k" := (and_then c (fun x => k))
  (at level 10, x name, c at level 100, k at level 200) : completion_scope.

(** ** Text helpers *)

Definition quote : string := String "034" "".
Definition newline : string := String "010" "".

Definition decimal (n : nat) : string := NilZero.string_of_uint (Nat.to_uint n).

(** WhiteSpace and LineTerminator code units below 256: TAB, LF, VT, FF, CR,
    SP and NBSP.  They are what [String.prototype.trim] strips and what the
    class [\s] matches. *)
Definition is_space (c : ascii) : bool :=
  existsb (Ascii.eqb c) ["009"; "010"; "011"; "012"; "013"; " "; "160"]%char.

Definition digits : list ascii := list_ascii_of_string "0123456789".

Definition is_digit (c : ascii) : bool := existsb (Ascii.eqb c) digits.

Fixpoint trimStart (s : string) : string :=
  match s with
  | String c rest => if is_space c then trimStart rest else s
  | EmptyString => EmptyString
  end.

Fixpoint trimEnd (s : string) : string :=
  match s with
  | String c rest =>
      let rest' := trimEnd rest in
      if is_space c && (rest' =? "") then "" else String c rest'
  | EmptyString => EmptyString
  end.

Definition trim (s : string) : string := trimEnd (trimStart s).

Fixpoint includes (x : string) (l : list string) : bool :=
  match l with
  | [] => false
  | y :: l' => (y =? x) || includes x l'
  end.

(** ** Regular expressions, matched against a whole string ([^...$] without
    flags) by derivatives. *)

Module Regex.

Inductive t : Type :=
| Never
| Empty
| Class (p : ascii -> bool)
| Seq (r1 r2 : t)
| Or (r1 r2 : t)
| Many (r : t).

Definition Plus (r : t) : t := Seq r (Many r).
Definition Opt (r : t) : t := Or r Empty.
Definition Char (c : ascii) : t := Class (Ascii.eqb c).

(** [r{n,}] *)
Fixpoint AtLeast (n : nat) (r : t) : t :=
  match n with
  | O => Many r
  | S n' => Seq r (AtLeast n' r)
  end.

Fixpoint nullable (r : t) : bool :=
  match r with
  | Never => false
  | Empty => true
  | Class _ => false
  | Seq r1 r2 => nullable r1 && nullable r2
  | Or r1 r2 => nullable r1 || nullable r2
  | Many _ => true
  end.

Fixpoint derive (c : ascii) (r : t) : t :=
  match r with
  | Never => Never
  | Empty => Never
  | Class p => if p c then Empty else Never
  | Seq r1 r2 =>
      if nullable r1
      then Or (Seq (derive c r1) r2) (derive c r2)
      else Seq (derive c r1) r2
  | Or r1 r2 => Or (derive c r1) (derive c r2)
  | Many r1 => Seq (derive c r1) (Many r1)
  end.

Fixpoint test (r : t) (s : string) : bool :=
  match s with
  | EmptyString => nullable r
  | String c rest => test (derive c r) rest
  end.

End Regex.

(** ** JavaScript values, as [JSON.parse] and property reads produce them.
    The number type belongs to the host. *)

#[warnings="-register-all"]
Inductive value (number : Type) : Type :=
| JUndefined
| JNull
| JBool (b : bool)
| JNumber (n : number)
| JString (s : string)
| JArray (items : list (value number))
| JObject (fields : list (string * value number)).

Arguments JUndefined {number}.
Arguments JNull {number}.
Arguments JBool {number} b.
Arguments JNumber {number} n.
Arguments JString {number} s.
Arguments JArray {number} items.
Arguments JObject {number} fields.

(** What the engine takes from the JavaScript host: its numbers and the
    wording of the two [TypeError]s that the formatters can provoke. *)
Class Host : Type := {
  number : Type;
  (** ToBoolean on a number: neither zero nor NaN. *)
  number_truthy : number -> bool;
  (** [n > 0]; false on NaN. *)
  number_positive : number -> bool;
  (** Number::toString. *)
  number_to_string : number -> string;
  (** StringToNumber. *)
  string_to_number : string -> number;
  (** Message of the TypeError for reading property [key] of [base], where
      [base] is ["null"] or ["undefined"]. *)
  cannot_read : forall (base key : string), string;
  (** Message of the TypeError for an object without a primitive value. *)
  cannot_convert : string
}.

Module Js.
Section WithHost.

Context {host : Host}.

Local Open Scope completion_scope.

Definition val : Type := value number.

Definition nullish (v : val) : bool :=
  match v with
  | JUndefined | JNull => true
  | _ => false
  end.

Definition ToBoolean (v : val) : bool :=
  match v with
  | JUndefined | JNull => false
  | JBool b => b
  | JNumber n => number_truthy n
  | JString s => negb (s =? "")
  | JArray _ | JObject _ => true
  end.

(** Own property of an object built by [JSON.parse]; [fields] lists the
    own properties, one binding per name. *)
Definition own (key : string) (fields : list (string * val)) : val :=
  match find (fun kv => fst kv =? key) fields with
  | Some kv => snd kv
  | None => JUndefined
  end.

Definition has_own (key : string) (fields : list (string * val)) : bool :=
  existsb (fun kv => fst kv =? key) fields.

(** [v.key], for the property names the engine reads ([name], [data],
    [items], [found], ...): none of them is a member of a prototype, so a
    primitive or an object without the own property answers [undefined]. *)
Definition Get (v : val) (key : string) : Completion val :=
  match v with
  | JUndefined => Throw (cannot_read "undefined" key)
  | JNull => Throw (cannot_read "null" key)
  | JObject fields => Normal (own key fields)
  | _ => Normal JUndefined
  end.

(** [v[i]] for an integer index. *)
Definition GetIndex (v : val) (i : nat) : Completion val :=
  match v with
  | JUndefined => Throw (cannot_read "undefined" (decimal i))
  | JNull => Throw (cannot_read "null" (decimal i))
  | JArray items => Normal (nth i items JUndefined)
  | JString s =>
      Normal match String.get i s with
             | Some c => JString (String c "")
             | None => JUndefined
             end
  | JObject fields => Normal (own (decimal i) fields)
  | _ => Normal JUndefined
  end.

(** ToString, as a template literal applies it to a substitution.  An
    array is joined with commas, [null] and [undefined] elements giving the
    empty string; an object answers through [Object.prototype.toString]
    unless an own (hence not callable) [toString] shadows it. *)
Fixpoint ToString (v : val) : Completion string :=
  match v with
  | JUndefined => Normal "undefined"
  | JNull => Normal "null"
  | JBool true => Normal "true"
  | JBool false => Normal "false"
  | JNumber n => Normal (number_to_string n)
  | JString s => Normal s
  | JArray items =>
      (fix join (l : list val) : Completion string :=
         match l with
         | [] => Normal ""
         | x :: rest =>
             let* s := (if nullish x then Normal "" else ToString x) in
             match rest with
             | [] => Normal s
             | _ :: _ => let* r := join rest in Normal (s ++ "," ++ r)
             end
         end) items
  | JObject fields =>
      if has_own "toString" fields
      then Throw cannot_convert
      else Normal "[object Object]"
  end.

(** [v > 0]: ToPrimitive, ToNumber, then the comparison. *)
Definition greater_than_zero (v : val) : Completion bool :=
  match v with
  | JUndefined | JNull => Normal false
  | JBool b => Normal b
  | JNumber n => Normal (number_positive n)
  | JString s => Normal (number_positive (string_to_number s))
  | JArray _ | JObject _ =>
      let* s := ToString v in
      Normal (number_positive (string_to_number s))
  end.

End WithHost.
End Js.

(** ** The engine's data *)

Inductive Status : Type :=
| Found      (* 'found' *)
| NotFound   (* 'not-found' *)
| Error.     (* 'error' *)

Definition Status_eqb (a b : Status) : bool :=
  match a, b with
  | Found, Found | NotFound, NotFound | Error, Error => true
  | _, _ => false
  end.

(** The [content] property of a result: missing from the object, an HTML
    fragment, or a member inherited from [Object.prototype] that
    [templates[platform]] found under the platform's name. *)
Inductive Content : Type :=
| Absent
| Html (markup : string)
| Inherited (member : string).

Record Payload : Type := {
  payload_query : string;
  payload_type : string;
  countryCode : string
}.

Record Request : Type := {
  request_url : string;
  method : string;
  content_type : string;
  body : Payload
}.

Section Engine.

Context {host : Host}.

Abbreviation val := (@Js.val host).

Record SearchResult : Type := {
  platform : string;
  status : Status;
  url : val;
  description : val;
  content : Content;
  timestamp : string
}.

Record OSINTEngine : Type := {
  results : list SearchResult;
  searchProgress : nat;
  totalPlatforms : nat;
  completedSearches : nat;
  API_KEYS : list (string * string)
}.

Definition constructor : OSINTEngine := {|
  results := [];
  searchProgress := 0;
  totalPlatforms := 0;
  completedSearches := 0;
  API_KEYS := [ ("TRUECALLER", "YOUR_TRUECALLER_API_KEY");
                ("TWITTER", "YOUR_TWITTER_API_KEY");
                ("FACEBOOK", "YOUR_FACEBOOK_API_KEY");
                ("INSTAGRAM", "YOUR_INSTAGRAM_API_KEY");
                ("GITHUB", "YOUR_GITHUB_API_KEY") ]
|}.

(** *** The world around the engine *)

(** A [fetch] response: the status line and what [response.json()] settles
    to.  [ok] is the Fetch standard's: a status in 200..299. *)
Record Response : Type := {
  http_status : nat;
  json : Completion val
}.

Definition ok (r : Response) : bool :=
  Nat.leb 200 (http_status r) && Nat.leb (http_status r) 299.

Inductive Settled : Type :=
| Fulfilled (response : Response)
| Rejected (message : string).

(** [fetch n req] settles the [n]-th call of [fetch]; [now n] is what the
    [n]-th [new Date().toISOString()] reads. *)
Record World : Type := {
  fetch : nat -> Request -> Settled;
  now : nat -> string
}.

(** The page: [progressFill] holds the width of the element of that id in
    percent, [progressText] the text of the other; [None] when
    [getElementById] finds no such element. *)
Record Document : Type := {
  progressFill : option Q;
  progressText : option string
}.

Inductive Event : Type :=
| Progress (message : string) (percent : Q)      (* a call of updateProgress *)
| Fetched (request : Request)                    (* a call of fetch *)
| Delayed (ms : nat)                             (* a call of delay *)
| ConsoleError (text message : string).          (* a call of console.error *)

Record Machine : Type := {
  this : OSINTEngine;
  document : Document;
  fetches : nat;
  clock_reads : nat;
  trace : list Event
}.

Definition with_this (e : OSINTEngine) (m : Machine) : Machine :=
  {| this := e; document := document m; fetches := fetches m;
     clock_reads := clock_reads m; trace := trace m |}.

Definition with_document (d : Document) (m : Machine) : Machine :=
  {| this := this m; document := d; fetches := fetches m;
     clock_reads := clock_reads m; trace := trace m |}.

Definition record (e : Event) (m : Machine) : Machine :=
  {| this := this m; document := document m; fetches := fetches m;
     clock_reads := clock_reads m; trace := trace m ++ [e] |}.

(** *** Computations of the engine: state and exceptions *)

Definition Run (A : Type) : Type := Machine -> Completion A * Machine.

Definition ret {A} (a : A) : Run A := fun m => (Normal a, m).

Definition throw {A} (message : string) : Run A := fun m => (Throw message, m).

Definition bind {A B} (c : Run A) (k : A -> Run B) : Run B :=
  fun m =>
    match c m with
    | (Normal a, m') => k a m'
    | (Throw message, m') => (Throw message, m')
    end.

Definition lift {A} (c : Completion A) : Run A := fun m => (c, m).

(** [try { c } catch (error) { handler error.message }] *)
Definition try_catch {A} (c : Run A) (handler : string -> Run A) : Run A :=
  fun m =>
    match c m with
    | (Normal a, m') => (Normal a, m')
    | (Throw message, m') => handler message m'
    end.

Definition read_this : Run OSINTEngine := fun m => (Normal (this m), m).

Definition update_this (f : OSINTEngine -> OSINTEngine) : Run unit :=
  fun m => (Normal tt, with_this (f (this m)) m).

Definition emit (e : Event) : Run unit := fun m => (Normal tt, record e m).

End Engine.

Declare Scope run_scope.
Delimit Scope run_scope with run.
Notation "x <- c ;; k" := (bind c (fun x => k))
  (at level 61, c at next level, right associativity) : run_scope.
Notation "c ;; k" := (bind c (fun _ => k))
  (at level 61, right associativity) : run_scope.

(** ** The methods of [OSINTEngine] *)

Section Methods.

Context {host : Host}.
Variable world : World.

Abbreviation val := (@Js.val host).

Local Open Scope run_scope.

(** [fetch(url, init)]: the call is recorded, counted and settled by the
    world; awaiting a rejected promise throws. *)
Definition fetch_call (request : Request) : Run Response :=
  fun m =>
    let m' := {| this := this m; document := document m;
                 fetches := S (fetches m); clock_reads := clock_reads m;
                 trace := trace m ++ [Fetched request] |} in
    match fetch world (fetches m) request with
    | Fulfilled response => (Normal response, m')
    | Rejected message => (Throw message, m')
    end.

(** [new Date().toISOString()] *)
Definition Date_now : Run string :=
  fun m =>
    (Normal (now world (clock_reads m)),
     {| this := this m; document := document m; fetches := fetches m;
        clock_reads := S (clock_reads m); trace := trace m |}).

(** [this.results.push(result)] *)
Definition push (result : SearchResult) : Run unit :=
  update_this (fun e =>
    {| results := results e ++ [result];
       searchProgress := searchProgress e;
       totalPlatforms := totalPlatforms e;
       completedSearches := completedSearches e;
       API_KEYS := API_KEYS e |}).

Definition updateProgress (message : string) (percent : Q) : Run unit :=
  fun m =>
    let progressFill := progressFill (document m) in
    let progressText := progressText (document m) in
    let page :=
      match progressFill, progressText with
      | Some _, Some _ =>
          {| progressFill := Some percent; progressText := Some message |}
      | _, _ => document m
      end in
    (Normal tt, record (Progress message percent) (with_document page m)).

Definition delay (ms : nat) : Run unit := emit (Delayed ms).

(** [(completed / total) * 100] *)
Definition percentage (completed total : nat) : Q :=
  (inject_Z (Z.of_nat completed) / inject_Z (Z.of_nat total) * 100)%Q.

(** *** Found content *)

Definition found_content (indent heading sentence : string) : string :=
  "<div class=" ++ quote ++ "found-content" ++ quote ++ ">" ++ newline ++
  indent ++ "    <h4>" ++ heading ++ "</h4>" ++ newline ++
  indent ++ "    <p>" ++ sentence ++ "</p>" ++ newline ++
  indent ++ "</div>".

Definition templates (query type : string) : list (string * string) :=
  let entry heading sentence :=
    found_content "            " heading (sentence ++ type ++ ": " ++ query) in
  [ ("Google", entry "Search Results" "Multiple results found for ");
    ("Facebook", entry "Profile Found" "Facebook profile found for ");
    ("Twitter", entry "Account Located" "Twitter account found matching ");
    ("Instagram", entry "Instagram Profile" "Instagram account found for ");
    ("LinkedIn", entry "Professional Profile" "LinkedIn profile found for ");
    ("GitHub", entry "Developer Profile" "GitHub account found for ");
    ("Reddit", entry "Reddit User" "Reddit account found for ");
    ("YouTube", entry "YouTube Channel" "YouTube channel found for ") ].

(** The names that every object literal inherits from [Object.prototype];
    each of them is truthy. *)
Definition Object_prototype : list string :=
  [ "constructor"; "hasOwnProperty"; "isPrototypeOf"; "propertyIsEnumerable";
    "toLocaleString"; "toString"; "valueOf"; "__proto__";
    "__defineGetter__"; "__defineSetter__"; "__lookupGetter__";
    "__lookupSetter__" ].

Fixpoint assoc (key : string) (l : list (string * string)) : option string :=
  match l with
  | [] => None
  | (k, v) :: l' => if k =? key then Some v else assoc key l'
  end.

(** The object literal evaluates every template, so [type] and [query] are
    converted to strings before the lookup. *)
Definition generateFoundContent (platform : string) (data query type : val)
  : Completion Content :=
  (let* t := Js.ToString type in
   let* q := Js.ToString query in
   match assoc platform (templates q t) with
   | Some markup => Normal (Html markup)
   | None =>
       if includes platform Object_prototype
       then Normal (Inherited platform)
       else Normal (Html (found_content "        " "Results Found"
                            ("Information found on " ++ platform ++ " for "
                               ++ t ++ ": " ++ q)))
   end)%completion.

(** *** Result formatters *)

Definition formatTruecallerResult (data : val) : Run SearchResult :=
  name <- lift (Js.Get data "name") ;;
  let status := if Js.ToBoolean name then Found else NotFound in
  description <-
    lift (let* name := Js.Get data "name" in
          if Js.ToBoolean name
          then let* name := Js.Get data "name" in
               let* name := Js.ToString name in
               let* spamScore := Js.Get data "spamScore" in
               let* spamScore := Js.ToString spamScore in
               Normal (JString ("Name: " ++ name ++ ", Spam: " ++ spamScore))
          else Normal (JString "No information found"))%completion ;;
  content <-
    lift (let* query := Js.Get data "query" in
          let* type := Js.Get data "type" in
          generateFoundContent "TrueCaller" data query type)%completion ;;
  timestamp <- Date_now ;;
  ret {| platform := "TrueCaller"; status := status; url := JNull;
         description := description; content := content;
         timestamp := timestamp |}.

Definition formatTwitterResult (data : val) : Run SearchResult :=
  user <- lift (Js.Get data "data") ;;
  let status := if Js.ToBoolean user then Found else NotFound in
  url <-
    lift (let* user := Js.Get data "data" in
          if Js.ToBoolean user
          then let* user := Js.Get data "data" in
               let* username := Js.Get user "username" in
               let* username := Js.ToString username in
               Normal (JString ("https://twitter.com/" ++ username))
          else Normal JNull)%completion ;;
  description <-
    lift (let* user := Js.Get data "data" in
          if Js.ToBoolean user
          then let* user := Js.Get data "data" in
               let* username := Js.Get user "username" in
               let* username := Js.ToString username in
               Normal (JString ("Twitter user found: @" ++ username))
          else Normal (JString "No Twitter account found"))%completion ;;
  content <-
    lift (let* query := Js.Get data "query" in
          let* type := Js.Get data "type" in
          generateFoundContent "Twitter" data query type)%completion ;;
  timestamp <- Date_now ;;
  ret {| platform := "Twitter"; status := status; url := url;
         description := description; content := content;
         timestamp := timestamp |}.

Definition formatGithubResult (data : val) : Run SearchResult :=
  positive <- lift (let* total_count := Js.Get data "total_count" in
                    Js.greater_than_zero total_count)%completion ;;
  let status := if (positive : bool) then Found else NotFound in
  url <-
    lift (let* items := Js.Get data "items" in
          let* first :=
            (if Js.nullish items then Normal JUndefined
             else Js.GetIndex items 0) in
          let* html_url :=
            (if Js.nullish first then Normal JUndefined
             else Js.Get first "html_url") in
          Normal (if Js.ToBoolean html_url then html_url else JNull))%completion ;;
  description <-
    lift (let* total_count := Js.Get data "total_count" in
          let* positive := Js.greater_than_zero total_count in
          if (positive : bool)
          then let* items := Js.Get data "items" in
               let* first := Js.GetIndex items 0 in
               let* login := Js.Get first "login" in
               let* login := Js.ToString login in
               Normal (JString ("GitHub user found: " ++ login))
          else Normal (JString "No GitHub account found"))%completion ;;
  content <-
    lift (let* query := Js.Get data "query" in
          let* type := Js.Get data "type" in
          generateFoundContent "GitHub" data query type)%completion ;;
  timestamp <- Date_now ;;
  ret {| platform := "GitHub"; status := status; url := url;
         description := description; content := content;
         timestamp := timestamp |}.

Definition formatDefaultResult (platform : string) (data : val)
  (query type : string) : Run SearchResult :=
  found_flag <- lift (Js.Get data "found") ;;
  let status := if Js.ToBoolean found_flag then Found else NotFound in
  url <- lift (let* url := Js.Get data "url" in
               Normal (if Js.ToBoolean url then url else JNull))%completion ;;
  description <-
    lift (let* description := Js.Get data "description" in
          Normal (if Js.ToBoolean description then description
                  else JString ("Search completed on " ++ platform)))%completion ;;
  content <-
    lift (generateFoundContent platform data (JString query) (JString type)) ;;
  timestamp <- Date_now ;;
  ret {| platform := platform; status := status; url := url;
         description := description; content := content;
         timestamp := timestamp |}.

Definition formatWhatsAppResult (data : val) : Run SearchResult :=
  contacts <- lift (Js.Get data "contacts") ;;
  let status := if Js.ToBoolean contacts then Found else NotFound in
  description <-
    lift (let* contacts := Js.Get data "contacts" in
          Normal (JString (if Js.ToBoolean contacts
                           then "WhatsApp account exists"
                           else "No WhatsApp account found")))%completion ;;
  content <-
    lift (let* query := Js.Get data "query" in
          let* type := Js.Get data "type" in
          generateFoundContent "WhatsApp" data query type)%completion ;;
  timestamp <- Date_now ;;
  ret {| platform := "WhatsApp"; status := status; url := JNull;
         description := description; content := content;
         timestamp := timestamp |}.

Definition formatUPIResult (data : val) : Run SearchResult :=
  valid <- lift (Js.Get data "valid") ;;
  let status := if Js.ToBoolean valid then Found else NotFound in
  description <-
    lift (let* valid := Js.Get data "valid" in
          if Js.ToBoolean valid
          then let* vpa := Js.Get data "vpa" in
               let* vpa := Js.ToString vpa in
               Normal (JString ("Valid UPI ID: " ++ vpa))
          else Normal (JString "Invalid UPI handle"))%completion ;;
  content <-
    lift (let* query := Js.Get data "query" in
          let* type := Js.Get data "type" in
          generateFoundContent "UPI" data query type)%completion ;;
  timestamp <- Date_now ;;
  ret {| platform := "UPI"; status := status; url := JNull;
         description := description; content := content;
         timestamp := timestamp |}.

Definition formatSearchResult (platformKey : string) (data : val)
  (query type : string) : Run SearchResult :=
  if platformKey =? "truecaller" then formatTruecallerResult data
  else if platformKey =? "twitter" then formatTwitterResult data
  else if platformKey =? "github" then formatGithubResult data
  else if platformKey =? "whatsapp" then formatWhatsAppResult data
  else if platformKey =? "upi" then formatUPIResult data
  else formatDefaultResult platformKey data query type.

(** *** Searching one platform *)

Definition search_request (platformKey query type : string) : Request :=
  {| request_url := "/api/search/" ++ platformKey;
     method := "POST";
     content_type := "application/json";
     body := {| payload_query := query; payload_type := type;
                countryCode := "IN" |} |}.

(** The [try] block of [searchPlatform]. *)
Definition searchPlatform_try (platformKey query type : string)
  : Run SearchResult :=
  response <- fetch_call (search_request platformKey query type) ;;
  (if negb (ok response)
   then throw ("HTTP error! status: " ++ decimal (http_status response))
   else ret tt) ;;
  data <- lift (json response) ;;
  result <- formatSearchResult platformKey data query type ;;
  push result ;;
  ret result.

(** The [catch] block of [searchPlatform]. *)
Definition searchPlatform_catch (platformKey : string) (message : string)
  : Run SearchResult :=
  emit (ConsoleError ("Error searching " ++ platformKey ++ ":") message) ;;
  timestamp <- Date_now ;;
  let errorResult :=
    {| platform := platformKey; status := Error; url := JNull;
       description := JString ("Error: " ++ message); content := Absent;
       timestamp := timestamp |} in
  push errorResult ;;
  ret errorResult.

Definition searchPlatform (platformKey query type : string)
  : Run SearchResult :=
  try_catch (searchPlatform_try platformKey query type)
            (searchPlatform_catch platformKey).

(** *** The search run *)

Definition reset (total : nat) (e : OSINTEngine) : OSINTEngine :=
  {| results := []; searchProgress := 0; totalPlatforms := total;
     completedSearches := 0; API_KEYS := API_KEYS e |}.

Definition increment_completed (e : OSINTEngine) : OSINTEngine :=
  {| results := results e; searchProgress := searchProgress e;
     totalPlatforms := totalPlatforms e;
     completedSearches := S (completedSearches e); API_KEYS := API_KEYS e |}.

Definition search_types : list string := ["email"; "phone"; "username"; "name"].

(** One turn of the [for ... of] loop of [performSearch]. *)
Definition search_turn (query type platform : string) : Run unit :=
  try_catch
    (e <- read_this ;;
     updateProgress ("Searching " ++ platform ++ "...")
       (percentage (completedSearches e) (totalPlatforms e)) ;;
     searchPlatform platform query type ;;
     update_this increment_completed ;;
     e <- read_this ;;
     let progress := percentage (completedSearches e) (totalPlatforms e) in
     updateProgress ("Searched " ++ decimal (completedSearches e) ++ "/"
                       ++ decimal (totalPlatforms e) ++ " platforms") progress ;;
     delay 1000)
    (fun message =>
       emit (ConsoleError ("Error searching " ++ platform ++ ":") message) ;;
       timestamp <- Date_now ;;
       push {| platform := platform; status := Error; url := JNull;
               description := JString ("Error: " ++ message);
               content := Absent; timestamp := timestamp |}).

Fixpoint search_each (query type : string) (platforms : list string)
  : Run unit :=
  match platforms with
  | [] => ret tt
  | platform :: rest =>
      search_turn query type platform ;;
      search_each query type rest
  end.

Definition performSearch (query type : string) (selectedPlatforms : list string)
  : Run (list SearchResult) :=
  update_this (reset (length selectedPlatforms)) ;;
  (if (query =? "") || (trim query =? "")
   then throw "Search query cannot be empty" else ret tt) ;;
  (if (type =? "") || negb (includes type search_types)
   then throw "Invalid search type" else ret tt) ;;
  updateProgress "Initializing search..." 0%Q ;;
  search_each query type selectedPlatforms ;;
  updateProgress "Search completed!" 100%Q ;;
  e <- read_this ;;
  ret (results e).

End Methods.

(** *** Statistics and input validation: no world needed *)

Section Pure.

Context {host : Host}.

Record Stats : Type := { total : nat; found : nat; completed : nat }.

Definition getSearchStats (e : OSINTEngine) : Stats :=
  let found := length (filter (fun r => Status_eqb (status r) Found) (results e)) in
  {| total := totalPlatforms e; found := found;
     completed := completedSearches e |}.

End Pure.

Import Regex.

Definition not_space_or_at (c : ascii) : bool :=
  negb (is_space c || Ascii.eqb c "@").

Definition digit_space_or_dash (c : ascii) : bool :=
  is_digit c || is_space c || Ascii.eqb c "-".

(** [/^[^\s@]+@[^\s@]+\.[^\s@]+$/] *)
Definition emailRegex : Regex.t :=
  Seq (Plus (Class not_space_or_at))
   (Seq (Char "@")
    (Seq (Plus (Class not_space_or_at))
     (Seq (Char ".")
          (Plus (Class not_space_or_at))))).

(** [/^\+?[\d\s-]{10,}$/] *)
Definition phoneRegex : Regex.t :=
  Seq (Opt (Char "+")) (AtLeast 10 (Class digit_space_or_dash)).

Definition validateSearchInput (query type : string) : Completion bool :=
  if type =? "email" then
    if negb (Regex.test emailRegex query)
    then Throw "Invalid email format" else Normal true
  else if type =? "phone" then
    if negb (Regex.test phoneRegex query)
    then Throw "Invalid phone number format" else Normal true
  else if type =? "username" then
    if Nat.ltb (String.length query) 3
    then Throw "Username must be at least 3 characters long" else Normal true
  else if type =? "name" then
    if Nat.ltb (String.length query) 2
    then Throw "Name must be at least 2 characters long" else Normal true
  else Normal true.

(** ** The server's generic search endpoint ([POST /api/search/:platform]) *)

Module Server.
Section WithHost.

Context {host : Host}.

Abbreviation val := (@Js.val host).

(** [encodeURIComponent] of the host. *)
Variable encodeURIComponent : string -> string.

(** The three cases of [handlePlatformSearch] that call a vendor API
    (SERP API, Hunter.io, GitHub): what the case returns. *)
Variable vendor : forall (platform query type : string),
  Completion (list (string * val)).

(** [error.stack] when [NODE_ENV] is ['development']. *)
Variable stack : string -> option string.

(** The rate limiter mounted on [/api]: its response to the [n]-th request
    when it does not let the request through. *)
Variable limiter : nat -> option Response.

(** The server's answer to the requests that [route] does not follow to
    the handler. *)
Variable off_route : nat -> Request -> Settled.

(** The cases of the [switch] in [handlePlatformSearch]. *)
Definition supported : list string :=
  [ "google"; "facebook"; "twitter"; "instagram"; "hunter"; "github";
    "reddit"; "youtube" ].

Definition handlePlatformSearch (platform query type : string)
  : Completion (list (string * val)) :=
  if platform =? "google" then vendor platform query type
  else if platform =? "facebook" then
    Normal [ ("found", JBool true);
             ("url", JString ("https://www.facebook.com/search/top?q="
                                ++ encodeURIComponent query));
             ("description", JString ("Facebook search results for " ++ query));
             ("status", JString "found") ]
  else if platform =? "twitter" then
    Normal [ ("found", JBool true);
             ("url", JString ("https://twitter.com/search?q="
                                ++ encodeURIComponent query));
             ("description", JString ("Twitter search results for " ++ query));
             ("status", JString "found") ]
  else if platform =? "instagram" then
    let instagramUrl :=
      if type =? "username"
      then "https://www.instagram.com/" ++ encodeURIComponent query ++ "/"
      else "https://www.instagram.com/explore/tags/"
             ++ encodeURIComponent query ++ "/" in
    Normal [ ("found", JBool true);
             ("url", JString instagramUrl);
             ("description",
              JString ("Instagram "
                         ++ (if type =? "username" then "profile" else "search")
                         ++ " for " ++ query));
             ("status", JString "found") ]
  else if platform =? "hunter" then vendor platform query type
  else if platform =? "github" then vendor platform query type
  else if platform =? "reddit" then
    Normal [ ("found", JBool true);
             ("url", JString (if type =? "username"
                              then "https://www.reddit.com/user/"
                                     ++ encodeURIComponent query
                              else "https://www.reddit.com/search/?q="
                                     ++ encodeURIComponent query));
             ("description",
              JString ("Reddit "
                         ++ (if type =? "username" then "user profile"
                             else "search results")
                         ++ " for " ++ query));
             ("status", JString "found") ]
  else if platform =? "youtube" then
    Normal [ ("found", JBool true);
             ("url", JString ("https://www.youtube.com/results?search_query="
                                ++ encodeURIComponent query));
             ("description", JString ("YouTube search results for " ++ query));
             ("status", JString "found") ]
  else Throw ("Platform " ++ platform ++ " not supported").

(** [{...fields, key: v}] *)
Fixpoint assign (key : string) (v : val) (fields : list (string * val))
  : list (string * val) :=
  match fields with
  | [] => [(key, v)]
  | (k, w) :: rest =>
      if k =? key then (k, v) :: rest else (k, w) :: assign key v rest
  end.

(** The handler of [app.post('/api/search/:platform', ...)]. *)
Definition search_endpoint (platform : string) (payload : Payload) : Response :=
  let query := payload_query payload in
  let type := payload_type payload in
  if query =? "" then
    {| http_status := 400;
       json := Normal (JObject [("error", JString "Query is required")]) |}
  else
    let searchType := if type =? "" then "search" else type in
    match handlePlatformSearch platform query searchType with
    | Normal result =>
        {| http_status := 200;
           json := Normal (JObject (assign "type" (JString searchType)
                                      (assign "query" (JString query) result))) |}
    | Throw message =>
        {| http_status := 500;
           json := Normal (JObject
                     ([ ("error", JString message);
                        ("query", JString query);
                        ("type", JString type) ]
                      ++ match stack message with
                         | Some text => [("stack", JString text)]
                         | None => []
                         end)) |}
    end.

(** *** From the URL given to [fetch] to the route parameter

    The browser parses the URL against the address of the page and sends
    the path it arrives at; Express matches that path against
    ['/api/search/:platform'] and unescapes the parameter. *)

(** C0 controls and space: the code units up to 32. *)
Definition c0_or_space (c : ascii) : bool :=
  match c with
  | Ascii b0 b1 b2 b3 b4 b5 b6 b7 =>
      negb b7 && negb b6 && (negb b5 || negb (b0 || b1 || b2 || b3 || b4))
  end.

Definition tab_or_newline (c : ascii) : bool :=
  existsb (Ascii.eqb c) ["009"; "010"; "013"]%char.

(** In the path of an http URL a backslash separates segments as a slash
    does. *)
Definition slash (c : ascii) : bool :=
  existsb (Ascii.eqb c) ["/"; "092"]%char.

(** The path ends where the query string or the fragment begins. *)
Definition ends_path (c : ascii) : bool :=
  existsb (Ascii.eqb c) ["?"; "#"]%char.

Fixpoint strip_start (s : string) : string :=
  match s with
  | String c rest => if c0_or_space c then strip_start rest else s
  | EmptyString => EmptyString
  end.

Fixpoint strip_end (s : string) : string :=
  match s with
  | String c rest =>
      let rest' := strip_end rest in
      if c0_or_space c && (rest' =? "") then "" else String c rest'
  | EmptyString => EmptyString
  end.

Fixpoint remove (p : ascii -> bool) (s : string) : string :=
  match s with
  | String c rest => if p c then remove p rest else String c (remove p rest)
  | EmptyString => EmptyString
  end.

(** The segments of a path, up to the query string or the fragment. *)
Fixpoint split_path (s : string) : list string :=
  match s with
  | EmptyString => [""]
  | String c rest =>
      if ends_path c then [""]
      else if slash c then "" :: split_path rest
      else match split_path rest with
           | segment :: more => String c segment :: more
           | [] => [String c ""]
           end
  end.

(** The URL parser's treatment of [.] and [..]: [path] holds the segments
    kept so far, the last one first. *)
Fixpoint normalise (segments path : list string) : list string :=
  match segments with
  | [] => rev path
  | segment :: rest =>
      let last := match rest with [] => true | _ :: _ => false end in
      if segment =? ".." then
        normalise rest (if last then "" :: tl path else tl path)
      else if segment =? "." then
        normalise rest (if last then "" :: path else path)
      else normalise rest (segment :: path)
  end.

Fixpoint holds (c : ascii) (s : string) : bool :=
  match s with
  | EmptyString => false
  | String d rest => Ascii.eqb c d || holds c rest
  end.

(** The segments of the path that the browser sends for [url], when [url]
    is a path on the page's own origin (it begins with one slash) that
    holds no percent sign.  The browser strips the C0 controls and spaces
    around the URL, drops its tabs and newlines, resolves [.] and [..],
    and escapes the characters that a path cannot hold; the last step is
    left out, because Express unescapes the parameter again. *)
Definition sent_path (url : string) : option (list string) :=
  match remove tab_or_newline (strip_end (strip_start url)) with
  | String c rest =>
      let segments := split_path rest in
      if slash c
         && negb (match rest with String d _ => slash d | EmptyString => false end)
         && negb (existsb (holds "%") segments)
      then Some (normalise segments [])
      else None
  | EmptyString => None
  end.

(** [s] is [low], whatever the case of its letters; [up] is [low] in upper
    case. *)
Fixpoint either_case (s low up : string) : bool :=
  match s, low, up with
  | EmptyString, EmptyString, EmptyString => true
  | String c s', String l low', String u up' =>
      (Ascii.eqb c l || Ascii.eqb c u) && either_case s' low' up'
  | _, _, _ => false
  end.

(** The route ['/api/search/:platform'] of [app.post]: Express compares
    the path without regard to the case of letters, lets one slash trail,
    and wants the parameter not empty.  [None] is for every request that
    this model does not follow to the handler: another method, a path that
    the route does not match, and the URLs that [sent_path] leaves out. *)
Definition route (request : Request) : option string :=
  if method request =? "POST" then
    match sent_path (request_url request) with
    | Some [api; search; platform]
    | Some [api; search; platform; EmptyString] =>
        if either_case api "api" "API" && either_case search "search" "SEARCH"
           && negb (platform =? "")
        then Some platform else None
    | _ => None
    end
  else None.

(** A platform name of letters, digits, [-] and [_]. *)
Definition plain_char (c : ascii) : bool :=
  existsb (Ascii.eqb c)
    (list_ascii_of_string
       "ABCDEFGHIJKLMNOPQRSTUVWXYZabcdefghijklmnopqrstuvwxyz0123456789-_").

Fixpoint all_plain (s : string) : bool :=
  match s with
  | EmptyString => true
  | String c rest => plain_char c && all_plain rest
  end.

Definition plain (s : string) : bool := negb (s =? "") && all_plain s.

Definition serve (n : nat) (request : Request) : Settled :=
  match route request with
  | Some platform =>
      match limiter n with
      | Some refusal => Fulfilled refusal
      | None => Fulfilled (search_endpoint platform (body request))
      end
  | None => off_route n request
  end.

(** The world in which the server answers every request, with [clock] as
    the browser's clock. *)
Definition world (clock : nat -> string) : World :=
  {| fetch := serve; now := clock |}.

End WithHost.
End Server.

(** ** A host to run the engine on: numbers are the integers and NaN
    ([None]); error messages are worded as V8 words them.  Of numeric
    strings it reads the unsigned decimal integers, the empty string being
    zero; it takes every other string for NaN. *)

Module Reference.

(** The position of [c] in [l]. *)
Fixpoint position (c : ascii) (l : list ascii) : nat :=
  match l with
  | [] => 0
  | d :: l' => if Ascii.eqb c d then 0 else S (position c l')
  end.

Fixpoint read_digits (s : string) (acc : Z) : option Z :=
  match s with
  | EmptyString => Some acc
  | String c rest =>
      if is_digit c
      then read_digits rest (10 * acc + Z.of_nat (position c digits))
      else None
  end.

#[export] Instance host : Host := {|
  number := option Z;
  number_truthy n := match n with Some z => negb (Z.eqb z 0) | None => false end;
  number_positive n := match n with Some z => Z.ltb 0 z | None => false end;
  number_to_string n :=
    match n with
    | Some z => NilZero.string_of_int (Z.to_int z)
    | None => "NaN"
    end;
  string_to_number s := read_digits s 0;
  cannot_read base key :=
    "Cannot read properties of " ++ base ++ " (reading '" ++ key ++ "')";
  cannot_convert := "Cannot convert object to primitive value"
|}.

End Reference.

(** * Vocabulary of the properties *)

(** The name that the formatter chosen by [formatSearchResult] writes into
    the [platform] property. *)
Definition display_name (platformKey : string) : string :=
  if platformKey =? "truecaller" then "TrueCaller"
  else if platformKey =? "twitter" then "Twitter"
  else if platformKey =? "github" then "GitHub"
  else if platformKey =? "whatsapp" then "WhatsApp"
  else if platformKey =? "upi" then "UPI"
  else platformKey.

Definition is_fetch (e : Event) : bool :=
  match e with Fetched _ => true | _ => false end.

Definition is_delay (e : Event) : bool :=
  match e with Delayed _ => true | _ => false end.

(** The adapter calls and the pauses of a trace, in order. *)
Definition pacing (events : list Event) : list Event :=
  filter (fun e => is_fetch e || is_delay e) events.

(** The percentages of the progress events of a trace, in order. *)
Fixpoint percents (events : list Event) : list Q :=
  match events with
  | [] => []
  | Progress _ percent :: rest => percent :: percents rest
  | _ :: rest => percents rest
  end.

(** The percentages that [turns] turns of the loop report when [done]
    searches of [total] were completed before. *)
Fixpoint reported (done total turns : nat) : list Q :=
  match turns with
  | O => []
  | S turns' =>
      percentage done total :: percentage (S done) total
        :: reported (S done) total turns'
  end.

Section Vocabulary.

Context {host : Host}.
Variable world : World.

(** The machine after one read of the clock. *)
Definition ticked (m : Machine) : Machine :=
  {| this := this m; document := document m; fetches := fetches m;
     clock_reads := S (clock_reads m); trace := trace m |}.

Definition pushed (r : SearchResult) (e : OSINTEngine) : OSINTEngine :=
  {| results := results e ++ [r]; searchProgress := searchProgress e;
     totalPlatforms := totalPlatforms e;
     completedSearches := completedSearches e; API_KEYS := API_KEYS e |}.

(** The object that both [catch] blocks build. *)
Definition error_result (platform message timestamp : string) : SearchResult :=
  {| platform := platform; status := Error; url := JNull;
     description := JString ("Error: " ++ message); content := Absent;
     timestamp := timestamp |}.

(** What a formatter does: it reads the clock once and returns a result
    that is not an error, or it throws and leaves the machine alone. *)
Definition formats (name : string) (c : Run SearchResult) : Prop :=
  forall m,
    (exists r, c m = (Normal r, ticked m)
               /\ platform r = name
               /\ status r <> Error
               /\ content r <> Absent
               /\ timestamp r = now world (clock_reads m))
    \/ (exists message, c m = (Throw message, m)).

Definition console_of (platformKey message : string) : Event :=
  ConsoleError ("Error searching " ++ platformKey ++ ":") message.

(** The machine right after the call of [fetch]. *)
Definition requested (request : Request) (m : Machine) : Machine :=
  {| this := this m; document := document m; fetches := S (fetches m);
     clock_reads := clock_reads m; trace := trace m ++ [Fetched request] |}.

(** The machine that a call of [searchPlatform] leaves: one more fetch, one
    more clock read, one more result, the request and then [console] added
    to the trace; the page is not touched. *)
Definition after_search (request : Request) (r : SearchResult)
  (console : list Event) (m : Machine) : Machine :=
  {| this := pushed r (this m); document := document m;
     fetches := S (fetches m); clock_reads := S (clock_reads m);
     trace := trace m ++ Fetched request :: console |}.

(** [searched n k p query type r console]: the call of [searchPlatform] on
    platform [p] that was the [n]-th fetch and the [k]-th clock read returned
    [r] and wrote [console]. *)
Definition searched (n k : nat) (p query type : string) (r : SearchResult)
  (console : list Event) : Prop :=
  exists m,
    fetches m = n /\ clock_reads m = k
    /\ searchPlatform world p query type m
       = (Normal r, after_search (search_request p query type) r console m).

(** [failed n k p query type message]: the [try] block of that call threw
    an error with [message]. *)
Definition failed (n k : nat) (p query type message : string) : Prop :=
  exists m,
    fetches m = n /\ clock_reads m = k
    /\ searchPlatform_try world p query type m
       = (Throw message, requested (search_request p query type) m).

Definition turn_events (done total : nat) (p query type : string)
  (console : list Event) : list Event :=
  [Progress ("Searching " ++ p ++ "...") (percentage done total);
   Fetched (search_request p query type)]
  ++ console
  ++ [Progress ("Searched " ++ decimal (S done) ++ "/" ++ decimal total
                  ++ " platforms") (percentage (S done) total);
      Delayed 1000].

(** [Turns query type total n k done platforms rs events]: the loop over
    [platforms], entered after [n] fetches, [k] clock reads and [done]
    completed searches, appends [rs] to the results and [events] to the
    trace. *)
Inductive Turns (query type : string) (total : nat)
  : nat -> nat -> nat -> list string -> list SearchResult -> list Event -> Prop :=
| Turns_nil n k done : Turns query type total n k done [] [] []
| Turns_cons n k done p platforms r console rs events :
    searched n k p query type r console ->
    Turns query type total (S n) (S k) (S done) platforms rs events ->
    Turns query type total n k done (p :: platforms) (r :: rs)
          (turn_events done total p query type console ++ events).

(** The claim that a run stops on an exception before it calls [fetch]. *)
Definition aborts_before_search (query type : string) (platforms : list string)
  (m : Machine) : Prop :=
  exists message m',
    performSearch world query type platforms m = (Throw message, m')
    /\ pacing (trace m') = pacing (trace m).

End Vocabulary.

(** ** Scenarios: a page, a fresh machine, the repository's server with no
    vendor behind it, and a world for the three platforms of the
    specification's example. *)

Module Scenario.

Import Reference.

Definition page : Document :=
  {| progressFill := Some 0%Q; progressText := Some "" |}.

Definition fresh : Machine :=
  {| this := constructor; document := page; fetches := 0; clock_reads := 0;
     trace := [] |}.

Definition instant (n : nat) : string :=
  "2024-01-01T00:00:0" ++ decimal n ++ ".000Z".

(** The answer of Express where no route matches: status 404 and a page
    that is no JSON. *)
Definition not_found : Response :=
  {| http_status := 404;
     json := Throw ("Unexpected token '<', " ++ quote ++ "<!DOCTYPE " ++ quote
                      ++ "... is not valid JSON") |}.

(** The server of the repository; its vendors find nothing, the limiter
    lets every request through, and the queries of the examples need no
    escaping.  No platform of the examples holds a percent sign, so that a
    request that is not followed to the handler finds no route. *)
Definition served : World :=
  Server.world (fun text => text)
               (fun _ _ _ => Normal [("found", JBool false)])
               (fun _ => None)
               (fun _ => None)
               (fun _ _ => Fulfilled not_found)
               instant.

(** The browser without a network: every call of [fetch] rejects. *)
Definition offline : World :=
  {| fetch _ _ := Rejected "Failed to fetch"; now := instant |}.

Definition octocat : Js.val :=
  JObject [ ("total_count", JNumber (Some 1%Z));
            ("items", JArray [ JObject [ ("login", JString "octocat");
                                         ("html_url",
                                          JString "https://github.com/octocat") ] ]);
            ("query", JString "octocat");
            ("type", JString "username") ].

(** GitHub answers with a user, Reddit with nothing found, and every other
    request goes to the server. *)
Definition example : World := {|
  fetch n request :=
    if request_url request =? "/api/search/github" then
      Fulfilled {| http_status := 200; json := Normal octocat |}
    else if request_url request =? "/api/search/reddit" then
      Fulfilled {| http_status := 200;
                   json := Normal (JObject [("found", JBool false)]) |}
    else if request_url request =? "/api/search/twitter" then
      Fulfilled {| http_status := 200; json := Normal (JObject []) |}
    else fetch served n request;
  now := instant
|}.

(** The platforms of the specification's example. *)
Definition three : list string := ["github"; "reddit"; "unknown-platform"].

(** Numbers for the weighted choice: the rationals and NaN ([None]).  A
    sum with NaN or with [undefined] is NaN, and no comparison with NaN
    holds. *)
Definition add (weightSum : option Q) (weight : option (option Q)) : option Q :=
  match weightSum, weight with
  | Some a, Some (Some b) => Some (a + b)%Q
  | _, _ => None
  end.

Definition at_most (x y : option Q) : bool :=
  match x, y with
  | Some a, Some b => Qle_bool a b
  | _, _ => false
  end.

End Scenario.

(** * The rest of the engine *)

(** ** What a regular expression matches *)

Inductive Matches : Regex.t -> string -> Prop :=
| Matches_Empty : Matches Regex.Empty ""
| Matches_Class p c : p c = true -> Matches (Regex.Class p) (String c "")
| Matches_Seq r1 r2 s1 s2 :
    Matches r1 s1 -> Matches r2 s2 -> Matches (Regex.Seq r1 r2) (s1 ++ s2)
| Matches_Or_left r1 r2 s : Matches r1 s -> Matches (Regex.Or r1 r2) s
| Matches_Or_right r1 r2 s : Matches r2 s -> Matches (Regex.Or r1 r2) s
| Matches_Many_done r : Matches (Regex.Many r) ""
| Matches_Many_more r s1 s2 :
    Matches r s1 -> Matches (Regex.Many r) s2 ->
    Matches (Regex.Many r) (s1 ++ s2).

(** Every character of [s] is in the class [p]. *)
Fixpoint every (p : ascii -> bool) (s : string) : bool :=
  match s with
  | EmptyString => true
  | String c rest => p c && every p rest
  end.

(** ** The validator that consults [Utils] *)

Section Utils.

(** [Utils.isValidEmail], [Utils.isValidPhone] and [Utils.isValidUsername]
    are defined outside the engine; they are taken as given. *)
Variables isValidEmail isValidPhone isValidUsername : string -> bool.

Definition validateInput (query type : string) : bool :=
  if type =? "email" then isValidEmail query
  else if type =? "phone" then isValidPhone query
  else if type =? "username" then isValidUsername query
  else if type =? "name" then Nat.leb 2 (String.length query)
  else false.

End Utils.

(** ** The weighted choice *)

Section Weighted.

(** The numbers of the host, as far as the choice uses them: zero, the sum
    [weightSum + weights[i]], where [weights[i]] is [None] when [weights]
    has no such index, and the comparison [random <= weightSum]. *)
Variable num : Type.
Variable zero : num.
Variable plus : num -> option num -> num.
Variable le : num -> num -> bool.

Context {A : Type}.

(** The [for] loop, at index [i] with [remaining] the choices from [i] on;
    [None] when the loop ends without returning. *)
Fixpoint weighted_loop (random weightSum : num) (weights : list num) (i : nat)
  (remaining : list A) : option A :=
  match remaining with
  | [] => None
  | choice :: rest =>
      let weightSum := plus weightSum (nth_error weights i) in
      if le random weightSum then Some choice
      else weighted_loop random weightSum weights (S i) rest
  end.

(** [random] is what [Math.random()] returned; the result is [None] for
    [undefined]. *)
Definition weightedRandomChoice (random : num) (choices : list A)
  (weights : list num) : option A :=
  match weighted_loop random zero weights 0 choices with
  | Some choice => Some choice
  | None => nth_error choices (length choices - 1)
  end.

(** [weightSum] where the loop compares it at index [i]: the sum of
    [weights[0]], ..., [weights[i]], taken from the left. *)
Fixpoint weightSum_at (weights : list num) (i : nat) : num :=
  plus (match i with 0 => zero | S j => weightSum_at weights j end)
       (nth_error weights i).

End Weighted.

(** ** The searches that call a vendor directly *)

Section Direct.

Context {host : Host}.

(** A request to a vendor: [api_body] is the object given to
    [JSON.stringify], [None] when the request has no body. *)
Record ApiRequest : Type := {
  api_url : string;
  api_method : string;
  api_headers : list (string * string);
  api_body : option (@Js.val host)
}.

Variable world : World.

(** [vendors n request] settles the [n]-th call of [fetch] when it goes to
    a vendor. *)
Variable vendors : nat -> ApiRequest -> Settled.

Local Open Scope run_scope.

(** [fetch] to a vendor: counted like every call of [fetch]; the trace
    records the requests to the engine's own server only. *)
Definition api_call (request : ApiRequest) : Run Response :=
  fun m =>
    let m' := {| this := this m; document := document m;
                 fetches := S (fetches m); clock_reads := clock_reads m;
                 trace := trace m |} in
    match vendors (fetches m) request with
    | Fulfilled response => (Normal response, m')
    | Rejected message => (Throw message, m')
    end.

(** [${this.API_KEYS.NAME}] *)
Definition api_key (name : string) : Run string :=
  fun m =>
    (Normal match assoc name (API_KEYS (this m)) with
            | Some key => key
            | None => "undefined"
            end, m).

Definition searchTruecaller (query type : string) : Run (option SearchResult) :=
  if negb (type =? "phone") then ret None
  else
    try_catch
      (key <- api_key "TRUECALLER" ;;
       response <- api_call
         {| api_url := "https://api4.truecaller.com/v1/search";
            api_method := "POST";
            api_headers := [ ("Authorization", "Bearer " ++ key);
                             ("Content-Type", "application/json") ];
            api_body := Some (JObject [ ("phone", JString query);
                                        ("countryCode", JString "IN") ]) |} ;;
       data <- lift (json response) ;;
       result <- formatTruecallerResult world data ;;
       ret (Some result))
      (fun message => throw ("TrueCaller API error: " ++ message)).

Definition searchTwitter (query type : string) : Run (option SearchResult) :=
  try_catch
    (let endpoint :=
       if type =? "email"
       then "https://api.twitter.com/2/users/by/email/" ++ query
       else "https://api.twitter.com/2/users/by/username/" ++ query in
     key <- api_key "TWITTER" ;;
     response <- api_call
       {| api_url := endpoint;
          api_method := "GET";
          api_headers := [ ("Authorization", "Bearer " ++ key);
                           ("Content-Type", "application/json") ];
          api_body := None |} ;;
     data <- lift (json response) ;;
     result <- formatTwitterResult world data ;;
     ret (Some result))
    (fun message => throw ("Twitter API error: " ++ message)).

Definition searchGithub (query type : string) : Run (option SearchResult) :=
  try_catch
    (key <- api_key "GITHUB" ;;
     response <- api_call
       {| api_url := "https://api.github.com/search/users?q=" ++ query;
          api_method := "GET";
          api_headers := [ ("Authorization", "token " ++ key);
                           ("Accept", "application/vnd.github.v3+json") ];
          api_body := None |} ;;
     data <- lift (json response) ;;
     result <- formatGithubResult world data ;;
     ret (Some result))
    (fun message => throw ("GitHub API error: " ++ message)).

Definition searchWhatsApp (query type : string) : Run (option SearchResult) :=
  if negb (type =? "phone") then ret None
  else
    try_catch
      (key <- api_key "FACEBOOK" ;;
       response <- api_call
         {| api_url := "https://graph.facebook.com/v17.0/WHATSAPP_BUSINESS_ACCOUNT_ID/messages";
            api_method := "POST";
            api_headers := [ ("Authorization", "Bearer " ++ key);
                             ("Content-Type", "application/json") ];
            api_body :=
              Some (JObject
                      [ ("messaging_product", JString "whatsapp");
                        ("recipient_type", JString "individual");
                        ("to", JString query);
                        ("type", JString "template");
                        ("template",
                         JObject [ ("name", JString "hello_world");
                                   ("language",
                                    JObject [("code", JString "en")]) ]) ]) |} ;;
       data <- lift (json response) ;;
       result <- formatWhatsAppResult world data ;;
       ret (Some result))
      (fun message => throw ("WhatsApp API error: " ++ message)).

Definition searchUPI (query type : string) : Run (option SearchResult) :=
  try_catch
    (key <- api_key "UPI" ;;
     response <- api_call
       {| api_url := "https://api.upi.system/v1/handle/verify";
          api_method := "POST";
          api_headers := [ ("Authorization", "Bearer " ++ key);
                           ("Content-Type", "application/json") ];
          api_body := Some (JObject [("upiHandle", JString query)]) |} ;;
     data <- lift (json response) ;;
     result <- formatUPIResult world data ;;
     ret (Some result))
    (fun message => throw ("UPI API error: " ++ message)).

(** What a direct search under the vendor's [name] does on [m]: it
    returns a result of that name that is not an error, or it throws an
    error whose message starts with the vendor's name; either way the
    engine's state is what it was. *)
Definition direct (name : string) (c : Run (option SearchResult)) (m : Machine)
  : Prop :=
  (exists r m',
      c m = (Normal (Some r), m')
      /\ platform r = name /\ status r <> Error /\ this m' = this m)
  \/ (exists message m',
      c m = (Throw (name ++ " API error: " ++ message), m')
      /\ this m' = this m).

End Direct.

(** ** More vocabulary *)

Section MoreVocabulary.

Context {host : Host}.

(** A result without its timestamp. *)
Definition untimed (r : SearchResult)
  : string * Status * @Js.val host * @Js.val host * Content :=
  (platform r, status r, url r, description r, content r).

(** The page has both elements that [updateProgress] looks up. *)
Definition has_progress_bar (d : Document) : bool :=
  match progressFill d, progressText d with
  | Some _, Some _ => true
  | _, _ => false
  end.

(** A world whose answers do not depend on how many requests were made
    before. *)
Definition steady (world : World) : Prop :=
  forall n n' request, fetch world n request = fetch world n' request.

(** Two calls of a formatter on the same data end alike: with results that
    differ in the timestamp at most, or with the same error. *)
Definition alike (c : Run SearchResult) : Prop :=
  forall m1 m2,
    match fst (c m1), fst (c m2) with
    | Normal r1, Normal r2 => untimed r1 = untimed r2
    | Throw message1, Throw message2 => message1 = message2
    | _, _ => False
    end.

End MoreVocabulary.

(** ** More about traces *)

Definition is_progress (e : Event) : bool :=
  match e with Progress _ _ => true | _ => false end.

Definition is_console (e : Event) : bool :=
  match e with ConsoleError _ _ => true | _ => false end.

(** The two progress reports of every turn of the loop over [platforms],
    [done] searches of [total] being completed before. *)
Fixpoint announcements (total done : nat) (platforms : list string)
  : list Event :=
  match platforms with
  | [] => []
  | p :: rest =>
      Progress ("Searching " ++ p ++ "...") (percentage done total)
      :: Progress ("Searched " ++ decimal (S done) ++ "/" ++ decimal total
                     ++ " platforms") (percentage (S done) total)
      :: announcements total (S done) rest
  end.

(** The property of the body that the formatter chosen by
    [formatSearchResult] reads first. *)
Definition first_read (platformKey : string) : string :=
  if platformKey =? "truecaller" then "name"
  else if platformKey =? "twitter" then "data"
  else if platformKey =? "github" then "total_count"
  else if platformKey =? "whatsapp" then "contacts"
  else if platformKey =? "upi" then "valid"
  else "found".

(** ** More scenarios *)

Module Answering.

Import Reference.

(** The world in which every request is answered with status 200 and the
    body [data]. *)
Definition always (data : Js.val) : World :=
  {| fetch := fun _ _ => Fulfilled {| http_status := 200; json := Normal data |};
     now := Scenario.instant |}.

(** Two users counted, none listed. *)
Definition counted : Js.val :=
  JObject [ ("total_count", JNumber (Some 2%Z)); ("items", JArray []) ].

End Answering.

(** * Properties *)

Section Facts.

Context {host : Host}.
Variable world : World.

Abbreviation val := (@Js.val host).

Lemma bind_lift {A B} (c : Completion A) (k : A -> Run B) (m : Machine) :
  bind (lift c) k m =
  match c with
  | Normal a => k a m
  | Throw message => (Throw message, m)
  end.
Proof. unfold bind, lift. destruct c; reflexivity. Qed.

Lemma bind_Date_now {B} (k : string -> Run B) (m : Machine) :
  bind (Date_now world) k m = k (now world (clock_reads m)) (ticked m).
Proof. reflexivity. Qed.

Lemma generateFoundContent_present platform (data query type : val) c :
  generateFoundContent platform data query type = Normal c -> c <> Absent.
Proof.
  unfold generateFoundContent, and_then.
  destruct (Js.ToString type); [|discriminate].
  destruct (Js.ToString query); [|discriminate].
  destruct (assoc platform _); [intros [= <-]; discriminate|].
  destruct (includes platform Object_prototype); intros [= <-]; discriminate.
Qed.

Ltac step_formatter :=
  match goal with
  | |- context [bind (lift ?c) _ _] =>
      rewrite (bind_lift c); let E := fresh "E" in destruct c eqn:E
  | |- context [bind (Date_now _) _ _] => rewrite bind_Date_now
  end.

Ltac finish_formatter :=
  solve
    [ right; eexists; reflexivity
    | left; eexists; split; [reflexivity|]; cbn;
      repeat split;
      solve [ reflexivity
            | match goal with |- (if ?b then _ else _) <> _ => destruct b end;
              discriminate
            | match goal with
              | H : and_then _ _ = Normal ?c |- ?c <> Absent =>
                  unfold and_then in H;
                  repeat match type of H with
                         | match ?x with _ => _ end = _ =>
                             destruct x; try discriminate
                         end;
                  eapply generateFoundContent_present; eassumption
              | H : generateFoundContent _ _ _ _ = Normal ?c |- ?c <> Absent =>
                  eapply generateFoundContent_present; eassumption
              end ] ].

Ltac formatter :=
  intro m; repeat (step_formatter; [|finish_formatter]); finish_formatter.

Lemma formatTruecallerResult_formats data :
  formats world "TrueCaller" (formatTruecallerResult world data).
Proof. unfold formatTruecallerResult. formatter. Qed.

Lemma formatTwitterResult_formats data :
  formats world "Twitter" (formatTwitterResult world data).
Proof. unfold formatTwitterResult. formatter. Qed.

Lemma formatGithubResult_formats data :
  formats world "GitHub" (formatGithubResult world data).
Proof. unfold formatGithubResult. formatter. Qed.

Lemma formatWhatsAppResult_formats data :
  formats world "WhatsApp" (formatWhatsAppResult world data).
Proof. unfold formatWhatsAppResult. formatter. Qed.

Lemma formatUPIResult_formats data :
  formats world "UPI" (formatUPIResult world data).
Proof. unfold formatUPIResult. formatter. Qed.

Lemma formatDefaultResult_formats platform data query type :
  formats world platform (formatDefaultResult world platform data query type).
Proof. unfold formatDefaultResult. formatter. Qed.

Lemma formatSearchResult_formats platformKey data query type :
  formats world (display_name platformKey)
          (formatSearchResult world platformKey data query type).
Proof.
  unfold formatSearchResult, display_name.
  destruct (platformKey =? "truecaller"); [apply formatTruecallerResult_formats|].
  destruct (platformKey =? "twitter"); [apply formatTwitterResult_formats|].
  destruct (platformKey =? "github"); [apply formatGithubResult_formats|].
  destruct (platformKey =? "whatsapp"); [apply formatWhatsAppResult_formats|].
  destruct (platformKey =? "upi"); [apply formatUPIResult_formats|].
  apply formatDefaultResult_formats.
Qed.

(** *** One call of [searchPlatform] *)

(** How the [try] block ends, read off the world's answer. *)
Lemma searchPlatform_try_rejected platformKey query type m message :
  fetch world (fetches m) (search_request platformKey query type)
  = Rejected message ->
  searchPlatform_try world platformKey query type m
  = (Throw message, requested (search_request platformKey query type) m).
Proof.
  intro H. unfold searchPlatform_try, bind, fetch_call. rewrite H. reflexivity.
Qed.

Lemma searchPlatform_try_not_ok platformKey query type m response :
  fetch world (fetches m) (search_request platformKey query type)
  = Fulfilled response ->
  ok response = false ->
  searchPlatform_try world platformKey query type m
  = (Throw ("HTTP error! status: " ++ decimal (http_status response)),
     requested (search_request platformKey query type) m).
Proof.
  intros H Hok. unfold searchPlatform_try, bind, fetch_call.
  rewrite H, Hok. reflexivity.
Qed.

Lemma searchPlatform_try_unparsed platformKey query type m response message :
  fetch world (fetches m) (search_request platformKey query type)
  = Fulfilled response ->
  ok response = true ->
  json response = Throw message ->
  searchPlatform_try world platformKey query type m
  = (Throw message, requested (search_request platformKey query type) m).
Proof.
  intros H Hok Hjson. unfold searchPlatform_try, bind, fetch_call, lift.
  rewrite H, Hok, Hjson. reflexivity.
Qed.

Lemma searchPlatform_try_cases platformKey query type m :
  let request := search_request platformKey query type in
  (exists r,
      searchPlatform_try world platformKey query type m
      = (Normal r, after_search request r [] m)
      /\ platform r = display_name platformKey
      /\ status r <> Error
      /\ content r <> Absent
      /\ timestamp r = now world (clock_reads m))
  \/ (exists message,
      searchPlatform_try world platformKey query type m
      = (Throw message, requested request m)).
Proof.
  intro request.
  unfold searchPlatform_try, bind, fetch_call. fold request.
  fold (requested request m).
  destruct (fetch world (fetches m) request) as [response|message].
  2:{ right. eexists. reflexivity. }
  destruct (ok response); cbn [negb].
  2:{ right. eexists. reflexivity. }
  unfold ret, lift. cbn beta iota.
  destruct (json response) as [data|message].
  2:{ right. eexists. reflexivity. }
  destruct (formatSearchResult_formats platformKey data query type
              (requested request m))
    as [(r & -> & Hname & Hstatus & Hcontent & Htime)|(message & ->)].
  - left. exists r. split; [|auto]. reflexivity.
  - right. eexists. reflexivity.
Qed.

Lemma searchPlatform_cases platformKey query type m :
  let request := search_request platformKey query type in
  (exists r,
      searchPlatform_try world platformKey query type m
      = (Normal r, after_search request r [] m)
      /\ searchPlatform world platformKey query type m
         = (Normal r, after_search request r [] m)
      /\ platform r = display_name platformKey
      /\ status r <> Error
      /\ content r <> Absent
      /\ timestamp r = now world (clock_reads m))
  \/ (exists message,
      searchPlatform_try world platformKey query type m
      = (Throw message, requested request m)
      /\ let r := error_result platformKey message (now world (clock_reads m)) in
         searchPlatform world platformKey query type m
         = (Normal r, after_search request r [console_of platformKey message] m)).
Proof.
  intro request. unfold searchPlatform, try_catch.
  destruct (searchPlatform_try_cases platformKey query type m)
    as [(r & H & Hrest)|(message & H)]; fold request in H; rewrite H.
  - left. exists r. auto.
  - right. exists message. split; [reflexivity|].
    cbv zeta. unfold searchPlatform_catch, bind, emit, Date_now, push,
      update_this, ret, after_search, record, requested. cbn.
    rewrite <- app_assoc. reflexivity.
Qed.

Lemma searchPlatform_returns p query type m :
  exists r console,
    searchPlatform world p query type m
    = (Normal r, after_search (search_request p query type) r console m)
    /\ searched world (fetches m) (clock_reads m) p query type r console.
Proof.
  destruct (searchPlatform_cases p query type m)
    as [(r & _ & H & _)|(message & _ & H)];
    cbv zeta in H; do 2 eexists; (split; [exact H|]);
    exists m; auto.
Qed.

(** A result of [searchPlatform]: either the formatter's, under the display
    name and with no console output, or the [catch] block's. *)
Lemma searched_inv n k p query type r console :
  searched world n k p query type r console ->
  (console = [] /\ platform r = display_name p /\ status r <> Error
   /\ content r <> Absent /\ timestamp r = now world k)
  \/ (exists message,
         failed world n k p query type message
         /\ console = [console_of p message]
         /\ r = error_result p message (now world k)).
Proof.
  intros (m & <- & <- & H).
  destruct (searchPlatform_cases p query type m)
    as [(r' & _ & H' & Hn & Hs & Hc & Ht)|(message & Htry & H')];
    cbv zeta in H'; rewrite H' in H;
    assert (Hr := f_equal fst H);
    assert (Hm := f_equal (fun x => trace (snd x)) H);
    cbn in Hr, Hm; injection Hr as Hr;
    apply app_inv_head in Hm; injection Hm as Hconsole; subst console.
  - left. subst r'. auto.
  - right. exists message. repeat split; auto. exists m. auto.
Qed.

(** *** The loop *)

Lemma search_turn_returns query type p m :
  exists r console m',
    search_turn world query type p m = (Normal tt, m')
    /\ searched world (fetches m) (clock_reads m) p query type r console
    /\ this m' = increment_completed (pushed r (this m))
    /\ fetches m' = S (fetches m)
    /\ clock_reads m' = S (clock_reads m)
    /\ trace m' = (trace m ++ turn_events (completedSearches (this m))
                                          (totalPlatforms (this m))
                                          p query type console)%list.
Proof.
  unfold search_turn, try_catch.
  unfold bind at 1. unfold read_this at 1.
  unfold bind at 1. unfold updateProgress at 1.
  unfold bind at 1.
  match goal with
  | |- context [searchPlatform world p query type ?m0] =>
      destruct (searchPlatform_returns p query type m0)
        as (r & console & Hrun & Hsearched); rewrite Hrun
  end.
  exists r, console. eexists. split; [reflexivity|].
  cbn. repeat split; try assumption.
  rewrite <- !app_assoc. reflexivity.
Qed.

Lemma search_each_returns query type platforms : forall m,
  exists rs events m',
    search_each world query type platforms m = (Normal tt, m')
    /\ Turns world query type (totalPlatforms (this m))
             (fetches m) (clock_reads m) (completedSearches (this m))
             platforms rs events
    /\ results (this m') = (results (this m) ++ rs)%list
    /\ searchProgress (this m') = searchProgress (this m)
    /\ totalPlatforms (this m') = totalPlatforms (this m)
    /\ completedSearches (this m') = completedSearches (this m) + length platforms
    /\ API_KEYS (this m') = API_KEYS (this m)
    /\ fetches m' = fetches m + length platforms
    /\ clock_reads m' = clock_reads m + length platforms
    /\ trace m' = (trace m ++ events)%list.
Proof.
  induction platforms as [|p platforms IH]; intro m.
  - exists [], [], m. cbn. rewrite !app_nil_r, !Nat.add_0_r.
    repeat split; constructor.
  - destruct (search_turn_returns query type p m)
      as (r & console & m1 & Hturn & Hsearched & Hthis & Hf & Hc & Htrace).
    destruct (IH m1)
      as (rs & events & m' & Heach & Hturns & Hres & Hprog & Htot & Hdone
          & Hkeys & Hf' & Hc' & Htrace').
    exists (r :: rs), (turn_events (completedSearches (this m))
                         (totalPlatforms (this m)) p query type console
                       ++ events)%list, m'.
    rewrite Hthis in *. cbn in Hturns, Hres, Hprog, Htot, Hdone, Hkeys.
    rewrite Hf, Hc in Hturns.
    split.
    { cbn [search_each]. unfold bind. rewrite Hturn. exact Heach. }
    split; [constructor; assumption|].
    rewrite Hres, Hprog, Htot, Hdone, Hkeys, Hf', Hc', Htrace', Hf, Hc, Htrace.
    cbn [length]. rewrite <- !app_assoc. cbn [app].
    repeat split; lia.
Qed.

(** *** The run *)

Lemma accepted_query query :
  trim query <> "" -> (query =? "") || (trim query =? "") = false.
Proof.
  intro H. destruct (String.eqb_spec (trim query) ""); [contradiction|].
  destruct (String.eqb_spec query ""); [|reflexivity].
  subst query. contradiction H. reflexivity.
Qed.

Lemma accepted_type type :
  In type search_types -> (type =? "") || negb (includes type search_types) = false.
Proof.
  unfold search_types. cbn [In].
  intros [<-|[<-|[<-|[<-|[]]]]]; reflexivity.
Qed.

Lemma performSearch_returns query type platforms m :
  trim query <> "" -> In type search_types ->
  exists rs events m',
    performSearch world query type platforms m = (Normal rs, m')
    /\ Turns world query type (length platforms) (fetches m) (clock_reads m) 0
             platforms rs events
    /\ this m' = {| results := rs; searchProgress := 0;
                    totalPlatforms := length platforms;
                    completedSearches := length platforms;
                    API_KEYS := API_KEYS (this m) |}
    /\ fetches m' = fetches m + length platforms
    /\ clock_reads m' = clock_reads m + length platforms
    /\ trace m' = (trace m ++ Progress "Initializing search..." 0%Q :: events
                     ++ [Progress "Search completed!" 100%Q])%list.
Proof.
  intros Hquery Htype.
  unfold performSearch.
  unfold bind at 1. unfold update_this at 1.
  unfold bind at 1. rewrite (accepted_query _ Hquery). unfold ret at 1.
  unfold bind at 1. rewrite (accepted_type _ Htype). unfold ret at 1.
  unfold bind at 1. unfold updateProgress at 1.
  unfold bind at 1.
  match goal with
  | |- context [search_each world query type platforms ?m0] =>
      destruct (search_each_returns query type platforms m0)
        as (rs & events & m1 & Heach & Hturns & Hres & Hprog & Htot & Hdone
            & Hkeys & Hf & Hc & Htrace); rewrite Heach
  end.
  cbn in Hturns, Hres, Hprog, Htot, Hdone, Hkeys, Hf, Hc, Htrace.
  exists rs, events. eexists. split.
  { unfold bind, updateProgress, read_this, ret. cbn. rewrite Hres. reflexivity. }
  cbn. split; [exact Hturns|].
  split.
  { destruct (this m1); cbn in *; subst; reflexivity. }
  rewrite Htrace, <- !app_assoc. auto.
Qed.

(** How a run that does not return ends: with the state reset and nothing
    else done. *)
Lemma performSearch_throws query type platforms m message m' :
  performSearch world query type platforms m = (Throw message, m') ->
  m' = with_this (reset (length platforms) (this m)) m
  /\ ((trim query = "" /\ message = "Search query cannot be empty")
      \/ (~ In type search_types /\ message = "Invalid search type")).
Proof.
  unfold performSearch.
  unfold bind at 1. unfold update_this at 1.
  unfold bind at 1.
  destruct ((query =? "") || (trim query =? "")) eqn:Hquery.
  { unfold throw. intros [= <- <-]. split; [reflexivity|]. left.
    split; [|reflexivity].
    apply orb_true_iff in Hquery as [H|H]; apply String.eqb_eq in H;
      [subst query|]; auto. }
  unfold ret at 1. unfold bind at 1.
  destruct ((type =? "") || negb (includes type search_types)) eqn:Htype.
  { unfold throw. intros [= <- <-]. split; [reflexivity|]. right.
    split; [|reflexivity].
    intro Hin. rewrite (accepted_type _ Hin) in Htype. discriminate. }
  unfold ret at 1. unfold bind at 1. unfold updateProgress at 1.
  unfold bind at 1.
  match goal with
  | |- context [search_each world query type platforms ?m0] =>
      destruct (search_each_returns query type platforms m0)
        as (rs & events & m1 & Heach & _); rewrite Heach
  end.
  discriminate.
Qed.

(** *** What a sequence of turns leaves *)

Lemma Turns_length query type total n k done platforms rs events :
  Turns world query type total n k done platforms rs events ->
  length rs = length platforms.
Proof. induction 1; cbn; congruence. Qed.

Lemma Turns_nth query type total n k done platforms rs events :
  Turns world query type total n k done platforms rs events ->
  forall i p, nth_error platforms i = Some p ->
    exists r console,
      nth_error rs i = Some r
      /\ searched world (n + i) (k + i) p query type r console.
Proof.
  induction 1 as [|n k done p0 platforms r0 console0 rs events H0 _ IH];
    intros i p Hi.
  - destruct i; discriminate.
  - destruct i as [|i]; cbn in Hi.
    + injection Hi as <-. exists r0, console0. rewrite !Nat.add_0_r. auto.
    + destruct (IH i p Hi) as (r & console & Hr & Hs).
      exists r, console. rewrite <- !Nat.add_succ_comm. auto.
Qed.

Lemma Turns_In query type total n k done platforms rs events :
  Turns world query type total n k done platforms rs events ->
  forall r, In r rs ->
    exists i p console,
      nth_error platforms i = Some p
      /\ nth_error rs i = Some r
      /\ searched world (n + i) (k + i) p query type r console.
Proof.
  induction 1 as [|n k done p0 platforms r0 console0 rs events H0 _ IH];
    intros r Hr.
  - destruct Hr.
  - destruct Hr as [<-|Hr].
    + exists 0, p0, console0. rewrite !Nat.add_0_r. auto.
    + destruct (IH r Hr) as (i & p & console & Hp & Hi & Hs).
      exists (S i), p, console. rewrite <- !Nat.add_succ_comm. auto.
Qed.

Lemma pacing_app a b : pacing (a ++ b) = (pacing a ++ pacing b)%list.
Proof. apply filter_app. Qed.

Lemma percents_app a b : percents (a ++ b) = (percents a ++ percents b)%list.
Proof.
  induction a as [|e a IH]; [reflexivity|].
  destruct e; cbn; rewrite IH; reflexivity.
Qed.

Lemma Turns_pacing query type total n k done platforms rs events :
  Turns world query type total n k done platforms rs events ->
  pacing events
  = flat_map (fun p => [Fetched (search_request p query type); Delayed 1000])
             platforms.
Proof.
  induction 1 as [|n k done p platforms r console rs events H0 _ IH];
    [reflexivity|].
  rewrite pacing_app, IH. cbn [flat_map]. f_equal.
  apply searched_inv in H0 as [(-> & _)|(message & _ & -> & _)]; reflexivity.
Qed.

Lemma Turns_percents query type total n k done platforms rs events :
  Turns world query type total n k done platforms rs events ->
  percents events = reported done total (length platforms).
Proof.
  induction 1 as [|n k done p platforms r console rs events H0 _ IH];
    [reflexivity|].
  rewrite percents_app, IH. cbn [length reported].
  apply searched_inv in H0 as [(-> & _)|(message & _ & -> & _)]; reflexivity.
Qed.

(** ** The claims about a run *)

(** C1. For every query that passes the validation of [performSearch] and
    every list of platforms, the run returns; the list it returns is the
    engine's result list and has exactly one entry per requested platform,
    the entry at index [i] being what [searchPlatform] returned for the
    [i]-th platform (a found, not-found or error result); and the completed
    counter ends at the number of platforms. *)
Theorem performSearch_result_per_platform query type platforms m :
  trim query <> "" -> In type search_types ->
  exists rs m',
    performSearch world query type platforms m = (Normal rs, m')
    /\ results (this m') = rs
    /\ length rs = length platforms
    /\ completedSearches (this m') = length platforms
    /\ totalPlatforms (this m') = length platforms
    /\ (forall i p, nth_error platforms i = Some p ->
          exists r console,
            nth_error rs i = Some r
            /\ searched world (fetches m + i) (clock_reads m + i)
                        p query type r console).
Proof.
  intros Hquery Htype.
  destruct (performSearch_returns query type platforms m Hquery Htype)
    as (rs & events & m' & Hrun & Hturns & Hthis & _).
  exists rs, m'. rewrite Hthis. cbn.
  repeat split; auto.
  - eapply Turns_length; eassumption.
  - eapply Turns_nth; eassumption.
Qed.

(** C3, as the code has it.  The entry at index [i] belongs to the [i]-th
    platform, and its [platform] property is the platform's identifier when
    the entry is an error, and otherwise the name that the platform's
    formatter writes: the identifier itself except for [truecaller],
    [twitter], [github], [whatsapp] and [upi], which are recorded as
    [TrueCaller], [Twitter], [GitHub], [WhatsApp] and [UPI]. *)
Theorem results_follow_platforms query type platforms m :
  trim query <> "" -> In type search_types ->
  exists rs m',
    performSearch world query type platforms m = (Normal rs, m')
    /\ length rs = length platforms
    /\ (forall i p, nth_error platforms i = Some p ->
          exists r,
            nth_error rs i = Some r
            /\ platform r
               = if Status_eqb (status r) Error then p else display_name p).
Proof.
  intros Hquery Htype.
  destruct (performSearch_returns query type platforms m Hquery Htype)
    as (rs & events & m' & Hrun & Hturns & _).
  exists rs, m'. split; [exact Hrun|].
  split; [eapply Turns_length; eassumption|].
  intros i p Hi.
  destruct (Turns_nth _ _ _ _ _ _ _ _ _ Hturns i p Hi) as (r & console & Hr & Hs).
  exists r. split; [exact Hr|].
  apply searched_inv in Hs
    as [(_ & Hname & Hstatus & _)|(message & _ & _ & ->)]; [|reflexivity].
  destruct (status r); [assumption|assumption|contradiction].
Qed.

(** C5. [searchPlatform] returns on every input: whatever the [try] block
    throws is caught, and the result returned (and appended to the results)
    is then the error result whose description is ["Error: "] followed by
    the message.  A rejected [fetch], a response that is not ok and a body
    that [response.json()] cannot read are three such throws. *)
Theorem searchPlatform_never_throws platformKey query type m :
  let request := search_request platformKey query type in
  let failure message :=
    error_result platformKey message (now world (clock_reads m)) in
  exists r console,
    searchPlatform world platformKey query type m
    = (Normal r, after_search request r console m)
    /\ (forall message m1,
          searchPlatform_try world platformKey query type m = (Throw message, m1) ->
          r = failure message)
    /\ (forall message,
          fetch world (fetches m) request = Rejected message ->
          r = failure message)
    /\ (forall response,
          fetch world (fetches m) request = Fulfilled response ->
          ok response = false ->
          r = failure ("HTTP error! status: " ++ decimal (http_status response)))
    /\ (forall response message,
          fetch world (fetches m) request = Fulfilled response ->
          ok response = true ->
          json response = Throw message ->
          r = failure message).
Proof.
  intros request failure.
  assert (Hcaught : exists r console,
    searchPlatform world platformKey query type m
    = (Normal r, after_search request r console m)
    /\ (forall message m1,
          searchPlatform_try world platformKey query type m = (Throw message, m1) ->
          r = failure message)).
  { destruct (searchPlatform_cases platformKey query type m)
      as [(r & Htry & Hrun & _)|(message & Htry & Hrun)].
    - exists r, []. split; [exact Hrun|].
      intros message m1 H. rewrite Htry in H. discriminate.
    - eexists. eexists. split; [exact Hrun|].
      intros message' m1 H. rewrite Htry in H. injection H as <- _.
      reflexivity. }
  destruct Hcaught as (r & console & Hrun & Hcaught).
  exists r, console. split; [exact Hrun|]. split; [exact Hcaught|].
  repeat split.
  - intros message H. eapply Hcaught.
    apply searchPlatform_try_rejected. exact H.
  - intros response H Hok. eapply Hcaught.
    apply searchPlatform_try_not_ok; assumption.
  - intros response message H Hok Hjson. eapply Hcaught.
    apply searchPlatform_try_unparsed with (response := response); assumption.
Qed.

(** C9. Every result of a run whose status is [error] has no content, and
    its description is ["Error: "] followed by the message of the error that
    the search of its platform threw. *)
Theorem error_results_carry_cause query type platforms m :
  trim query <> "" -> In type search_types ->
  exists rs m',
    performSearch world query type platforms m = (Normal rs, m')
    /\ (forall r, In r rs -> status r = Error ->
          content r = Absent
          /\ exists i p message,
               nth_error platforms i = Some p
               /\ nth_error rs i = Some r
               /\ failed world (fetches m + i) (clock_reads m + i)
                         p query type message
               /\ description r = JString ("Error: " ++ message)).
Proof.
  intros Hquery Htype.
  destruct (performSearch_returns query type platforms m Hquery Htype)
    as (rs & events & m' & Hrun & Hturns & _).
  exists rs, m'. split; [exact Hrun|].
  intros r Hin Herror.
  destruct (Turns_In _ _ _ _ _ _ _ _ _ Hturns r Hin) as (i & p & console & Hp & Hr & Hs).
  apply searched_inv in Hs
    as [(_ & _ & Hstatus & _)|(message & Hfailed & _ & ->)];
    [contradiction|].
  split; [reflexivity|].
  exists i, p, message. auto.
Qed.

(** *** Progress *)

Lemma percentage_le done done' total :
  done <= done' -> (percentage done total <= percentage done' total)%Q.
Proof.
  intro H. unfold percentage, Qdiv.
  apply Qmult_le_compat_r; [|discriminate].
  apply Qmult_le_compat_r.
  - rewrite <- Zle_Qle. lia.
  - apply Qinv_le_0_compat. change 0%Q with (inject_Z 0).
    rewrite <- Zle_Qle. lia.
Qed.

Lemma percentage_full total :
  0 < total -> (percentage total total == 100)%Q.
Proof.
  intro H. unfold percentage, Qdiv. rewrite Qmult_inv_r.
  - reflexivity.
  - change 0%Q with (inject_Z 0). rewrite inject_Z_injective. lia.
Qed.

Lemma percentage_le_100 done total :
  done <= total -> (percentage done total <= 100)%Q.
Proof.
  intro H. destruct total as [|total].
  - replace done with 0 by lia. discriminate.
  - eapply Qle_trans; [apply percentage_le; exact H|].
    rewrite percentage_full by lia. apply Qle_refl.
Qed.

Lemma reported_sorted turns : forall done total,
  done + turns = total ->
  StronglySorted Qle (reported done total turns ++ [100%Q])
  /\ Forall (Qle (percentage done total)) (reported done total turns ++ [100%Q]).
Proof.
  induction turns as [|turns IH]; intros done total H; cbn.
  - split; [repeat constructor|].
    constructor; [|constructor]. apply percentage_le_100. lia.
  - destruct (IH (S done) total ltac:(lia)) as [Hsorted Hall].
    assert (Hstep : (percentage done total <= percentage (S done) total)%Q)
      by (apply percentage_le; lia).
    assert (Hrest : Forall (Qle (percentage done total))
                      (reported (S done) total turns ++ [100%Q])).
    { eapply Forall_impl; [|exact Hall].
      intros q Hq. eapply Qle_trans; eassumption. }
    split.
    + constructor; [constructor; assumption|].
      constructor; assumption.
    + constructor; [apply Qle_refl|]. constructor; assumption.
Qed.

(** C7. In every run that passes validation the first event is the progress
    event ["Initializing search..."] at 0, the last is ["Search completed!"]
    at 100, and the percentages of the progress events never decrease. *)
Theorem progress_never_decreases query type platforms m :
  trim query <> "" -> In type search_types ->
  exists rs m' events,
    performSearch world query type platforms m = (Normal rs, m')
    /\ trace m' = (trace m
                   ++ Progress "Initializing search..." 0%Q :: events
                   ++ [Progress "Search completed!" 100%Q])%list
    /\ StronglySorted Qle
         (percents (Progress "Initializing search..." 0%Q :: events
                      ++ [Progress "Search completed!" 100%Q])).
Proof.
  intros Hquery Htype.
  destruct (performSearch_returns query type platforms m Hquery Htype)
    as (rs & events & m' & Hrun & Hturns & _ & _ & _ & Htrace).
  exists rs, m', events. split; [exact Hrun|]. split; [exact Htrace|].
  cbn [percents]. rewrite percents_app.
  rewrite (Turns_percents _ _ _ _ _ _ _ _ _ Hturns). cbn [percents].
  destruct (reported_sorted (length platforms) 0 (length platforms) eq_refl)
    as [Hsorted Hall].
  constructor; [exact Hsorted|].
  eapply Forall_impl; [|exact Hall].
  intros q Hq. eapply Qle_trans; [|exact Hq].
  apply (percentage_le 0 0). lia.
Qed.

(** *** Pacing *)

(** C6, what the code does.  Of the calls of [fetch] and [delay] in a run,
    every [fetch] is followed by [delay(1000)]: the pause comes after each
    search, the last one included, and never before the first. *)
Theorem delay_follows_every_search query type platforms m :
  trim query <> "" -> In type search_types ->
  exists rs m' events,
    performSearch world query type platforms m = (Normal rs, m')
    /\ trace m' = (trace m ++ events)%list
    /\ pacing events
       = flat_map (fun p => [Fetched (search_request p query type); Delayed 1000])
                  platforms.
Proof.
  intros Hquery Htype.
  destruct (performSearch_returns query type platforms m Hquery Htype)
    as (rs & events & m' & Hrun & Hturns & _ & _ & _ & Htrace).
  exists rs, m'. eexists. split; [exact Hrun|]. split; [exact Htrace|].
  change (Progress "Initializing search..." 0%Q :: events
            ++ [Progress "Search completed!" 100%Q])%list
    with ([Progress "Initializing search..." 0%Q]
            ++ events ++ [Progress "Search completed!" 100%Q])%list.
  rewrite !pacing_app. cbn [pacing filter is_fetch is_delay orb app].
  rewrite app_nil_r. eapply Turns_pacing; eassumption.
Qed.

(** *** Validation and reset *)

Lemma includes_In x l : includes x l = true -> In x l.
Proof.
  induction l as [|y l IH]; cbn; [discriminate|].
  intro H. apply orb_true_iff in H as [H|H].
  - left. apply String.eqb_eq. exact H.
  - right. auto.
Qed.

(** A run either stops in validation, right after the reset, or its query
    and type are accepted. *)
Lemma performSearch_outcome query type platforms m :
  (exists message,
      performSearch world query type platforms m
      = (Throw message, with_this (reset (length platforms) (this m)) m)
      /\ ((trim query = "" /\ message = "Search query cannot be empty")
          \/ (trim query <> "" /\ ~ In type search_types
              /\ message = "Invalid search type")))
  \/ (trim query <> "" /\ In type search_types).
Proof.
  unfold performSearch, bind at 1, update_this at 1, bind at 1.
  destruct ((query =? "") || (trim query =? "")) eqn:Hquery.
  { left. eexists. split; [reflexivity|]. left. split; [|reflexivity].
    apply orb_true_iff in Hquery as [H|H]; apply String.eqb_eq in H;
      [subst query|]; auto. }
  apply orb_false_iff in Hquery as [_ Hquery].
  apply String.eqb_neq in Hquery.
  unfold ret at 1, bind at 1.
  destruct ((type =? "") || negb (includes type search_types)) eqn:Htype.
  { left. eexists. split; [reflexivity|]. right. split; [assumption|].
    split; [|reflexivity].
    intro Hin. rewrite (accepted_type _ Hin) in Htype. discriminate. }
  right. split; [assumption|].
  apply orb_false_iff in Htype as [_ Htype].
  apply negb_false_iff in Htype. apply includes_In. exact Htype.
Qed.

(** C2, as the code has it.  [performSearch] stops on an exception before
    any call of [fetch] when the query is empty or white space only, or when
    the type is none of the four kinds.  The format failures of the
    specification (email ["not-an-email"], phone ["123"], username ["ab"],
    name ["a"]) are exceptions of [validateSearchInput], which a run does
    not call. *)
Theorem validation_failures query type platforms m :
  trim query = "" \/ ~ In type search_types ->
  aborts_before_search world query type platforms m
  /\ validateSearchInput "not-an-email" "email" = Throw "Invalid email format"
  /\ validateSearchInput "123" "phone" = Throw "Invalid phone number format"
  /\ validateSearchInput "ab" "username"
     = Throw "Username must be at least 3 characters long"
  /\ validateSearchInput "a" "name"
     = Throw "Name must be at least 2 characters long".
Proof.
  intro Hbad. split; [|repeat split; reflexivity].
  destruct (performSearch_outcome query type platforms m)
    as [(message & Hrun & _)|(Hquery & Htype)].
  - exists message. eexists. split; [exact Hrun|]. reflexivity.
  - destruct Hbad; contradiction.
Qed.

(** C8. After any run the statistics report the number of requested
    platforms as [total], the number of results whose status is [found] as
    [found], and the number of platforms processed (the number of results)
    as [completed]; a run that returns has processed every platform.  For
    three results that are found, not found and an error the statistics are
    3, 1 and 3. *)
Theorem getSearchStats_after_run query type platforms m :
  exists outcome m',
    performSearch world query type platforms m = (outcome, m')
    /\ getSearchStats (this m')
       = {| total := length platforms;
            found :=
              length (filter (fun r => Status_eqb (status r) Found)
                             (results (this m')));
            completed := length (results (this m')) |}
    /\ (forall rs, outcome = Normal rs ->
          results (this m') = rs /\ length rs = length platforms)
    /\ (map status (results (this m')) = [Found; NotFound; Error] ->
          getSearchStats (this m')
          = {| total := 3; found := 1; completed := 3 |}).
Proof.
  assert (Hstats : exists outcome m',
    performSearch world query type platforms m = (outcome, m')
    /\ totalPlatforms (this m') = length platforms
    /\ completedSearches (this m') = length (results (this m'))
    /\ (forall rs, outcome = Normal rs ->
          results (this m') = rs /\ length rs = length platforms)).
  { destruct (performSearch_outcome query type platforms m)
      as [(message & Hrun & _)|(Hquery & Htype)].
    - do 2 eexists. split; [exact Hrun|]. cbn.
      split; [reflexivity|]. split; [reflexivity|]. discriminate.
    - destruct (performSearch_returns query type platforms m Hquery Htype)
        as (rs & events & m' & Hrun & Hturns & Hthis & _).
      apply Turns_length in Hturns.
      do 2 eexists. split; [exact Hrun|]. rewrite Hthis. cbn.
      split; [reflexivity|]. split; [auto|].
      intros rs' [= <-]. auto. }
  destruct Hstats as (outcome & m' & Hrun & Htotal & Hdone & Hreturned).
  exists outcome, m'. split; [exact Hrun|].
  assert (Hgeneral : getSearchStats (this m')
       = {| total := length platforms;
            found :=
              length (filter (fun r => Status_eqb (status r) Found)
                             (results (this m')));
            completed := length (results (this m')) |}).
  { unfold getSearchStats. rewrite Htotal, Hdone. reflexivity. }
  split; [exact Hgeneral|]. split; [exact Hreturned|].
  intro Hstatuses. unfold getSearchStats. rewrite Hdone.
  assert (Hthree : length (results (this m')) = 3)
    by (rewrite <- length_map with (f := status), Hstatuses; reflexivity).
  assert (Hthree' : totalPlatforms (this m') = 3).
  { rewrite Htotal.
    destruct outcome as [rs|message].
    - destruct (Hreturned rs eq_refl) as [<- <-]. exact Hthree.
    - destruct (performSearch_throws query type platforms m message m' Hrun)
        as [-> _].
      cbn in Hstatuses. discriminate. }
  rewrite Hthree, Hthree'.
  destruct (results (this m')) as [|a [|b [|c [|d l]]]]; try discriminate.
  cbn in Hstatuses. injection Hstatuses as Ha Hb Hc.
  cbn. rewrite Ha, Hb, Hc. reflexivity.
Qed.

(** C10. A run starts by resetting the engine: it behaves as it does on the
    engine already reset, whatever results and counters an earlier run
    left; a run that stops in validation leaves the engine reset (results
    empty, both counters zero, the total set to the number of platforms) and
    has done nothing else; and every entry of the list a run returns was
    produced by a search of that run. *)
Theorem performSearch_resets_first query type platforms m :
  performSearch world query type platforms m
  = performSearch world query type platforms
      (with_this (reset (length platforms) (this m)) m)
  /\ (forall earlier progress total done,
        performSearch world query type platforms
          (with_this {| results := earlier; searchProgress := progress;
                        totalPlatforms := total; completedSearches := done;
                        API_KEYS := API_KEYS (this m) |} m)
        = performSearch world query type platforms m)
  /\ (forall message m',
        performSearch world query type platforms m = (Throw message, m') ->
        m' = with_this {| results := []; searchProgress := 0;
                          totalPlatforms := length platforms;
                          completedSearches := 0;
                          API_KEYS := API_KEYS (this m) |} m)
  /\ (forall rs m',
        performSearch world query type platforms m = (Normal rs, m') ->
        results (this m') = rs
        /\ forall r, In r rs ->
             exists i p console,
               nth_error platforms i = Some p
               /\ nth_error rs i = Some r
               /\ searched world (fetches m + i) (clock_reads m + i)
                           p query type r console).
Proof.
  split; [reflexivity|]. split; [reflexivity|]. split.
  - intros message m' H.
    apply performSearch_throws in H as [-> _]. reflexivity.
  - intros rs m' Hrun.
    destruct (performSearch_outcome query type platforms m)
      as [(message & Hthrow & _)|(Hquery & Htype)].
    { rewrite Hthrow in Hrun. discriminate. }
    destruct (performSearch_returns query type platforms m Hquery Htype)
      as (rs' & events & m'' & Hrun' & Hturns & Hthis & _).
    rewrite Hrun' in Hrun. injection Hrun as -> ->.
    rewrite Hthis. split; [reflexivity|].
    intros r Hin. eapply Turns_In; eassumption.
Qed.

End Facts.

(** ** A platform that the server does not know *)

Section ServerFacts.

Context {host : Host}.

Variable encodeURIComponent : string -> string.
Variable vendor : forall (platform query type : string),
  Completion (list (string * @Js.val host)).
Variable stack : string -> option string.

Lemma plain_char_ordinary c :
  Server.plain_char c = true ->
  Server.c0_or_space c = false /\ Server.tab_or_newline c = false
  /\ Server.slash c = false /\ Server.ends_path c = false
  /\ Ascii.eqb "%" c = false /\ Ascii.eqb c "." = false.
Proof.
  destruct c as [[] [] [] [] [] [] [] []]; vm_compute; intro H;
    try discriminate H; repeat split; reflexivity.
Qed.

(** The URL parser leaves a plain name as it is. *)
Lemma plain_travels p :
  Server.all_plain p = true ->
  Server.strip_end p = p
  /\ Server.remove Server.tab_or_newline p = p
  /\ Server.split_path p = [p]
  /\ Server.holds "%" p = false.
Proof.
  induction p as [|c p IH]; cbn [Server.all_plain]; [repeat split; reflexivity|].
  intro H. apply andb_prop in H as [Hc Hp].
  destruct (plain_char_ordinary c Hc) as (H1 & H2 & H3 & H4 & H5 & _).
  destruct (IH Hp) as (I1 & I2 & I3 & I4).
  cbn [Server.strip_end Server.remove Server.split_path Server.holds].
  rewrite H1, H2, H3, H4, H5, I1, I2, I3, I4. repeat split; reflexivity.
Qed.

Lemma plain_no_dots p :
  Server.plain p = true ->
  (p =? "") = false /\ (p =? "..") = false /\ (p =? ".") = false.
Proof.
  unfold Server.plain. destruct p as [|c p]; [discriminate|].
  cbn [String.eqb negb andb Server.all_plain]. intro H.
  apply andb_prop in H as [Hc _].
  destruct (plain_char_ordinary c Hc) as (_ & _ & _ & _ & _ & H6).
  rewrite H6. auto.
Qed.

Lemma sent_path_search p :
  Server.plain p = true ->
  Server.sent_path ("/api/search/" ++ p) = Some ["api"; "search"; p].
Proof.
  intro H. destruct (plain_no_dots p H) as (He & Hdd & Hd).
  unfold Server.plain in H. rewrite He in H. cbn [negb andb] in H.
  destruct (plain_travels p H) as (H1 & H2 & H3 & H4).
  unfold Server.sent_path.
  assert (Hs : Server.remove Server.tab_or_newline
                 (Server.strip_end (Server.strip_start ("/api/search/" ++ p)))
               = "/api/search/" ++ p).
  { simpl. rewrite H1. simpl. rewrite H2. reflexivity. }
  rewrite Hs. clear Hs.
  assert (Hp : Server.split_path ("api/search/" ++ p) = ["api"; "search"; p]).
  { simpl. rewrite H3. reflexivity. }
  change ("/api/search/" ++ p) with (String "/" ("api/search/" ++ p)).
  cbv beta iota zeta. rewrite Hp.
  change ("api/search/" ++ p) with (String "a" ("pi/search/" ++ p)).
  cbv beta iota.
  replace (existsb (Server.holds "%") ["api"; "search"; p]) with false
    by (simpl; rewrite H4; reflexivity).
  replace (Server.normalise ["api"; "search"; p] []) with ["api"; "search"; p]
    by (simpl; rewrite Hdd, Hd; reflexivity).
  reflexivity.
Qed.

(** The request for a plain name reaches the handler under that name. *)
Lemma route_search_request p query type :
  Server.plain p = true ->
  Server.route (search_request p query type) = Some p.
Proof.
  intro H. unfold Server.route, search_request. cbn [method request_url].
  rewrite (sent_path_search p H).
  destruct (plain_no_dots p H) as (He & _). rewrite He. reflexivity.
Qed.

Lemma handlePlatformSearch_unknown p query type :
  ~ In p Server.supported ->
  Server.handlePlatformSearch encodeURIComponent vendor p query type
  = Throw ("Platform " ++ p ++ " not supported").
Proof.
  intro H. unfold Server.handlePlatformSearch.
  repeat match goal with
         | |- context [p =? ?name] =>
             destruct (String.eqb_spec p name);
             [exfalso; apply H; subst p; cbn; tauto|]
         end.
  reflexivity.
Qed.

Lemma search_endpoint_unknown name p query type :
  query <> "" ->
  ~ In name Server.supported ->
  Server.search_endpoint encodeURIComponent vendor stack name
    (body (search_request p query type))
  = {| http_status := 500;
       json := Normal (JObject
                 ([ ("error", JString ("Platform " ++ name ++ " not supported"));
                    ("query", JString query);
                    ("type", JString type) ]
                  ++ match stack ("Platform " ++ name ++ " not supported") with
                     | Some text => [("stack", JString text)]
                     | None => []
                     end)) |}.
Proof.
  intros Hquery Hp. unfold Server.search_endpoint. cbn.
  destruct (String.eqb_spec query ""); [contradiction|].
  rewrite handlePlatformSearch_unknown by assumption. reflexivity.
Qed.

Lemma flat_map_pairs_length {A B} (f g : A -> B) l :
  length (flat_map (fun a => [f a; g a]) l) = 2 * length l.
Proof. induction l as [|a l IH]; cbn; [reflexivity|]. rewrite IH. lia. Qed.

(** C4, as the code has it.  The engine has no registry of adapters: it
    posts the request for every platform.  When the server's search
    endpoint answers the request for a platform and handles it under a name
    that is none of the cases of [handlePlatformSearch], the handler throws
    ["Platform ... not supported"] and the endpoint answers with status
    500, so the run records for that platform, under the identifier it was
    given, the error result whose description is ["Error: HTTP error!
    status: 500"], and goes on: every platform gets its result, and when
    another platform follows, the pause of 1000 ms stands between the two
    requests. *)
Theorem unknown_platform_is_an_http_error (world : World) query type platforms
    m i p name :
  let request := search_request p query type in
  let reply :=
    Server.search_endpoint encodeURIComponent vendor stack name (body request) in
  trim query <> "" -> In type search_types ->
  nth_error platforms i = Some p ->
  ~ In name Server.supported ->
  fetch world (fetches m + i) request = Fulfilled reply ->
  exists rs m' events,
    performSearch world query type platforms m = (Normal rs, m')
    /\ length rs = length platforms
    /\ Server.handlePlatformSearch encodeURIComponent vendor name query type
       = Throw ("Platform " ++ name ++ " not supported")
    /\ http_status reply = 500
    /\ nth_error rs i
       = Some (error_result p "HTTP error! status: 500"
                 (now world (clock_reads m + i)))
    /\ trace m' = (trace m ++ events)%list
    /\ (forall p', nth_error platforms (S i) = Some p' ->
          exists before after,
            length before = 2 * i
            /\ pacing events
               = (before
                  ++ [ Fetched request; Delayed 1000;
                       Fetched (search_request p' query type) ]
                  ++ after)%list).
Proof.
  intros request reply Hquery Htype Hp Hunknown Hfetch.
  assert (Hquery' : query <> "")
    by (intros ->; apply Hquery; reflexivity).
  pose proof (search_endpoint_unknown name p query type Hquery' Hunknown)
    as Hreply.
  fold request reply in Hreply.
  destruct (performSearch_returns world query type platforms m Hquery Htype)
    as (rs & events & m' & Hrun & Hturns & _ & _ & _ & Htrace).
  exists rs, m'. eexists. split; [exact Hrun|].
  split; [eapply Turns_length; eassumption|].
  split; [apply handlePlatformSearch_unknown; exact Hunknown|].
  split; [rewrite Hreply; reflexivity|].
  split; [|split; [exact Htrace|]].
  - destruct (Turns_nth _ _ _ _ _ _ _ _ _ _ Hturns i p Hp)
      as (r & console & Hr & (mi & Hf & Hc & Hsearch)).
    rewrite Hr. f_equal.
    assert (Htry : searchPlatform_try world p query type mi
                   = (Throw "HTTP error! status: 500", requested request mi)).
    { rewrite (searchPlatform_try_not_ok world p query type mi reply).
      - rewrite Hreply. reflexivity.
      - rewrite Hf. exact Hfetch.
      - rewrite Hreply. reflexivity. }
    destruct (searchPlatform_cases world p query type mi)
      as [(r' & Htry' & _)|(message & Htry' & Hsearch')];
      rewrite Htry in Htry'; [discriminate|].
    injection Htry' as <-. cbv zeta in Hsearch'.
    rewrite Hsearch' in Hsearch. injection Hsearch as <-.
    rewrite Hc. reflexivity.
  - intros p' Hp'.
    destruct (nth_error_split platforms i Hp) as (l1 & l2 & -> & <-).
    rewrite nth_error_app2 in Hp' by lia.
    replace (S (length l1) - length l1) with 1 in Hp' by lia.
    destruct l2 as [|p'' l2]; [discriminate|]. injection Hp' as ->.
    change (Progress "Initializing search..." 0%Q :: events
              ++ [Progress "Search completed!" 100%Q])%list
      with ([Progress "Initializing search..." 0%Q]
              ++ events ++ [Progress "Search completed!" 100%Q])%list.
    rewrite !pacing_app. cbn [pacing filter is_fetch is_delay orb app].
    rewrite app_nil_r.
    rewrite (Turns_pacing _ _ _ _ _ _ _ _ _ _ Hturns), flat_map_app.
    cbn [flat_map app].
    eexists. exists (Delayed 1000 ::
      flat_map (fun p0 => [Fetched (search_request p0 query type); Delayed 1000]) l2).
    split; [apply flat_map_pairs_length|reflexivity].
Qed.

End ServerFacts.

(** * The claims on the scenarios *)

Import Reference.

Ltac evaluate_run :=
  match goal with
  | |- context [performSearch ?w ?q ?t ?ps ?m] =>
      let run := fresh "run" in
      let Hrun := fresh "Hrun" in
      remember (performSearch w q t ps m) as run eqn:Hrun;
      vm_compute in Hrun; subst run
  end.

Ltac accepted := split; [vm_compute; discriminate|cbn; tauto].

(** C1 on the example of the specification: three platforms, three
    results, three completed. *)
Lemma performSearch_result_per_platform_example :
  (trim "octocat" <> "" /\ In "username" search_types)
  /\ exists rs m',
       performSearch Scenario.example "octocat" "username" Scenario.three Scenario.fresh
       = (Normal rs, m')
       /\ results (this m') = rs
       /\ length rs = 3
       /\ completedSearches (this m') = 3.
Proof.
  split; [accepted|].
  destruct (@performSearch_result_per_platform _ Scenario.example
              "octocat" "username" Scenario.three Scenario.fresh)
    as (rs & m' & Hrun & Hresults & Hlength & Hdone & _);
    [vm_compute; discriminate|cbn; tauto|].
  exists rs, m'. auto.
Defined.

(** C2: the run stops before any request on a query of spaces. *)
Lemma validation_failures_example :
  (trim "   " = "" \/ ~ In "username" search_types)
  /\ aborts_before_search Scenario.served "   " "username" Scenario.three Scenario.fresh.
Proof.
  split; [left; reflexivity|].
  apply (@validation_failures _ Scenario.served "   " "username" Scenario.three
           Scenario.fresh).
  left. reflexivity.
Defined.

(** C2 fails as stated: each of the four format failures passes the
    validation of [performSearch], and the platform is requested. *)
Lemma format_failures_are_searched :
  (validateSearchInput "not-an-email" "email" = Throw "Invalid email format"
   /\ exists rs m',
        performSearch Scenario.served "not-an-email" "email" ["github"]
                      Scenario.fresh = (Normal rs, m')
        /\ pacing (trace m')
           = [Fetched (search_request "github" "not-an-email" "email");
              Delayed 1000])
  /\ ~ aborts_before_search Scenario.served "not-an-email" "email" ["github"]
                            Scenario.fresh
  /\ ~ aborts_before_search Scenario.served "123" "phone" ["github"]
                            Scenario.fresh
  /\ ~ aborts_before_search Scenario.served "ab" "username" ["github"]
                            Scenario.fresh
  /\ ~ aborts_before_search Scenario.served "a" "name" ["github"]
                            Scenario.fresh.
Proof.
  split.
  { split; [reflexivity|]. evaluate_run. do 2 eexists.
    split; reflexivity. }
  repeat split; intros (message & m' & Hrun & _);
    vm_compute in Hrun; discriminate.
Qed.

(** C3 on the example and on [twitter]. *)
Lemma results_follow_platforms_example :
  (trim "octocat" <> "" /\ In "username" search_types)
  /\ exists rs m',
       performSearch Scenario.example "octocat" "username"
                     ["reddit"; "twitter"] Scenario.fresh = (Normal rs, m')
       /\ map platform rs = ["reddit"; "Twitter"].
Proof.
  split; [accepted|].
  destruct (@results_follow_platforms _ Scenario.example "octocat" "username"
              ["reddit"; "twitter"] Scenario.fresh)
    as (rs & m' & Hrun & Hlength & Hnth);
    [vm_compute; discriminate|cbn; tauto|].
  exists rs, m'. split; [exact Hrun|].
  vm_compute in Hrun. injection Hrun as <- _. reflexivity.
Defined.

(** C3 fails as stated: the result for the platform [twitter] is recorded
    under the name [Twitter]. *)
Lemma twitter_is_renamed :
  exists rs m' r,
    performSearch Scenario.example "octocat" "username" ["twitter"]
                  Scenario.fresh = (Normal rs, m')
    /\ nth_error ["twitter"] 0 = Some "twitter"
    /\ nth_error rs 0 = Some r
    /\ platform r = "Twitter"
    /\ platform r <> "twitter".
Proof.
  evaluate_run. do 3 eexists. split; [reflexivity|].
  split; [reflexivity|]. split; [reflexivity|].
  split; [reflexivity|]. discriminate.
Qed.

(** C4 on the server: [unknown-platform] and [no route] before [github].
    The server handles both requests under the names they were made for,
    and knows neither. *)
Lemma unknown_platform_example :
  (trim "octocat" <> "" /\ In "username" search_types
   /\ ~ In "unknown-platform" Server.supported
   /\ ~ In "no route" Server.supported)
  /\ exists rs m',
       performSearch Scenario.served "octocat" "username"
                     ["unknown-platform"; "no route"; "github"] Scenario.fresh
       = (Normal rs, m')
       /\ length rs = 3
       /\ nth_error rs 0
          = Some (error_result "unknown-platform" "HTTP error! status: 500"
                               (Scenario.instant 0))
       /\ nth_error rs 1
          = Some (error_result "no route" "HTTP error! status: 500"
                               (Scenario.instant 1)).
Proof.
  assert (Hunknown : forall name,
            In name ["unknown-platform"; "no route"] ->
            ~ In name Server.supported).
  { intros name [<-|[<-|[]]]; cbn;
      intros [H|[H|[H|[H|[H|[H|[H|[H|[]]]]]]]]]; discriminate H. }
  assert (Hquery : trim "octocat" <> "") by (vm_compute; discriminate).
  assert (Htype : In "username" search_types) by (cbn; tauto).
  split; [split; [exact Hquery|]; split; [exact Htype|];
          split; apply Hunknown; cbn; tauto|].
  destruct (@unknown_platform_is_an_http_error _
              (fun text => text)
              (fun _ _ _ => Normal [("found", JBool false)])
              (fun _ => None)
              Scenario.served
              "octocat" "username" ["unknown-platform"; "no route"; "github"]
              Scenario.fresh 0 "unknown-platform" "unknown-platform"
              Hquery Htype eq_refl (Hunknown _ (or_introl eq_refl)) eq_refl)
    as (rs & m' & events & Hrun & Hlength & _ & _ & Hfirst & _).
  destruct (@unknown_platform_is_an_http_error _
              (fun text => text)
              (fun _ _ _ => Normal [("found", JBool false)])
              (fun _ => None)
              Scenario.served
              "octocat" "username" ["unknown-platform"; "no route"; "github"]
              Scenario.fresh 1 "no route" "no route"
              Hquery Htype eq_refl
              (Hunknown _ (or_intror (or_introl eq_refl))) eq_refl)
    as (rs' & m'' & events' & Hrun' & _ & _ & _ & Hsecond & _).
  rewrite Hrun in Hrun'. injection Hrun' as <- <-.
  exists rs, m'. auto.
Defined.

(** C4 fails as stated: the description is not ["platform not supported"],
    and the pause is made after the request for the unknown platform. *)
Lemma unknown_platform_is_paced :
  exists rs m' r,
    performSearch Scenario.served "octocat" "username"
                  ["unknown-platform"; "github"] Scenario.fresh
    = (Normal rs, m')
    /\ nth_error rs 0 = Some r
    /\ status r = Error
    /\ description r = JString "Error: HTTP error! status: 500"
    /\ description r <> JString "platform not supported"
    /\ pacing (trace m')
       = [ Fetched (search_request "unknown-platform" "octocat" "username");
           Delayed 1000;
           Fetched (search_request "github" "octocat" "username");
           Delayed 1000 ].
Proof.
  evaluate_run. do 3 eexists. split; [reflexivity|].
  split; [reflexivity|]. split; [reflexivity|]. split; [reflexivity|].
  split; [discriminate|reflexivity].
Qed.

(** C6 at a single platform: the pause is made after the only, hence the
    last, request, and before the run reports completion. *)
Lemma delay_after_the_last_search :
  (trim "octocat" <> "" /\ In "username" search_types)
  /\ exists rs m' events,
       performSearch Scenario.example "octocat" "username" ["github"]
                     Scenario.fresh = (Normal rs, m')
       /\ trace m' = events
       /\ pacing events
          = [Fetched (search_request "github" "octocat" "username");
             Delayed 1000]
       /\ last events (Delayed 0) = Progress "Search completed!" 100%Q.
Proof.
  split; [accepted|].
  destruct (@delay_follows_every_search _ Scenario.example "octocat" "username"
              ["github"] Scenario.fresh)
    as (rs & m' & events & Hrun & Htrace & Hpacing);
    [vm_compute; discriminate|cbn; tauto|].
  exists rs, m', events. split; [exact Hrun|].
  split; [exact Htrace|]. split; [exact Hpacing|].
  vm_compute in Hrun. injection Hrun as _ <-.
  cbn in Htrace. subst events. reflexivity.
Defined.

(** C7 on the example. *)
Lemma progress_never_decreases_example :
  (trim "octocat" <> "" /\ In "username" search_types)
  /\ exists rs m',
       performSearch Scenario.example "octocat" "username" Scenario.three Scenario.fresh
       = (Normal rs, m')
       /\ StronglySorted Qle (percents (trace m'))
       /\ hd_error (trace m') = Some (Progress "Initializing search..." 0%Q)
       /\ last (trace m') (Delayed 0) = Progress "Search completed!" 100%Q.
Proof.
  split; [accepted|].
  destruct (@progress_never_decreases _ Scenario.example "octocat" "username"
              Scenario.three Scenario.fresh)
    as (rs & m' & events & Hrun & Htrace & Hsorted);
    [vm_compute; discriminate|cbn; tauto|].
  exists rs, m'. split; [exact Hrun|].
  cbn [Scenario.fresh trace app] in Htrace. rewrite Htrace.
  split; [exact Hsorted|]. split; [reflexivity|].
  change (Progress "Initializing search..." 0%Q :: events
            ++ [Progress "Search completed!" 100%Q])%list
    with ((Progress "Initializing search..." 0%Q :: events)
            ++ [Progress "Search completed!" 100%Q])%list.
  apply last_last.
Defined.

(** C8 on the example of the specification. *)
Lemma getSearchStats_example :
  exists outcome m',
    performSearch Scenario.example "octocat" "username" Scenario.three Scenario.fresh
    = (outcome, m')
    /\ map status (results (this m')) = [Found; NotFound; Error]
    /\ getSearchStats (this m')
       = {| total := 3; found := 1; completed := 3 |}.
Proof.
  destruct (@getSearchStats_after_run _ Scenario.example "octocat" "username"
              Scenario.three Scenario.fresh)
    as (outcome & m' & Hrun & _ & _ & Hexample).
  exists outcome, m'. split; [exact Hrun|].
  assert (Hstatuses : map status (results (this m')) = [Found; NotFound; Error]).
  { vm_compute in Hrun. injection Hrun as _ <-. reflexivity. }
  split; [exact Hstatuses|exact (Hexample Hstatuses)].
Defined.

(** C9 on the example: the one error result, of the platform that the
    server does not know. *)
Lemma error_results_carry_cause_example :
  (trim "octocat" <> "" /\ In "username" search_types)
  /\ exists rs m',
       performSearch Scenario.example "octocat" "username" Scenario.three Scenario.fresh
       = (Normal rs, m')
       /\ (forall r, In r rs -> status r = Error -> content r = Absent)
       /\ exists r,
            nth_error rs 2 = Some r
            /\ status r = Error
            /\ content r = Absent
            /\ description r = JString "Error: HTTP error! status: 500".
Proof.
  split; [accepted|].
  destruct (@error_results_carry_cause _ Scenario.example "octocat" "username"
              Scenario.three Scenario.fresh)
    as (rs & m' & Hrun & Herrors);
    [vm_compute; discriminate|cbn; tauto|].
  exists rs, m'. split; [exact Hrun|].
  split; [intros r Hin Herror; apply (Herrors r Hin Herror)|].
  vm_compute in Hrun. injection Hrun as <- _.
  eexists. split; [reflexivity|].
  split; [reflexivity|]. split; reflexivity.
Defined.

(** C5 without a network, where [fetch] rejects, and on the server at a
    platform it does not know, where the response is not ok: either way the
    call returns the error result. *)
Lemma searchPlatform_never_throws_example :
  (exists r m',
     searchPlatform Scenario.offline "github" "octocat" "username" Scenario.fresh
     = (Normal r, m')
     /\ r = error_result "github" "Failed to fetch" (Scenario.instant 0)
     /\ results (this m') = [r])
  /\ (exists r m',
        searchPlatform Scenario.served "no route" "octocat" "username"
                       Scenario.fresh
        = (Normal r, m')
        /\ r = error_result "no route" "HTTP error! status: 500"
                            (Scenario.instant 0)
        /\ results (this m') = [r]).
Proof.
  split.
  - destruct (@searchPlatform_never_throws _ Scenario.offline "github" "octocat"
                "username" Scenario.fresh)
      as (r & console & Hrun & _ & Hrejected & _).
    cbv zeta in Hrun, Hrejected.
    exists r. eexists. split; [exact Hrun|].
    split; [|reflexivity].
    apply Hrejected. reflexivity.
  - destruct (@searchPlatform_never_throws _ Scenario.served "no route" "octocat"
                "username" Scenario.fresh)
      as (r & console & Hrun & _ & _ & Hstatus & _).
    cbv zeta in Hrun, Hstatus.
    exists r. eexists. split; [exact Hrun|].
    split; [|reflexivity].
    apply (Hstatus (Server.search_endpoint (fun text => text)
                      (fun _ _ _ => Normal [("found", JBool false)])
                      (fun _ => None) "no route"
                      (body (search_request "no route" "octocat" "username"))));
      reflexivity.
Defined.

(** C10 on an engine that an earlier run left with five results counted
    and one stale entry: the run returns its own two results only. *)
Lemma performSearch_resets_first_example :
  exists rs m',
    performSearch Scenario.example "octocat" "username" ["reddit"; "twitter"]
      (with_this {| results := [error_result "stale" "earlier run" "then"];
                    searchProgress := 0;
                    totalPlatforms := 5;
                    completedSearches := 5;
                    API_KEYS := API_KEYS (this Scenario.fresh) |}
                 Scenario.fresh)
    = (Normal rs, m')
    /\ map platform rs = ["reddit"; "Twitter"]
    /\ results (this m') = rs
    /\ completedSearches (this m') = 2.
Proof.
  destruct (@performSearch_resets_first _ Scenario.example "octocat" "username"
              ["reddit"; "twitter"] Scenario.fresh)
    as (_ & Hindependent & _).
  rewrite Hindependent.
  evaluate_run. do 2 eexists. split; [reflexivity|].
  split; [reflexivity|]. split; reflexivity.
Defined.

(** * More properties *)

(** ** Regular expressions *)

Lemma append_empty s1 s2 : s1 ++ s2 = "" -> s1 = "" /\ s2 = "".
Proof. destruct s1; cbn; [auto|discriminate]. Qed.

Lemma Matches_Never_inv s : ~ Matches Regex.Never s.
Proof. intro H. inversion H. Qed.

Lemma Matches_Empty_inv s : Matches Regex.Empty s <-> s = "".
Proof. split; intro H; [inversion H; reflexivity|subst; constructor]. Qed.

Lemma Matches_Class_inv p s :
  Matches (Regex.Class p) s <-> exists c, s = String c "" /\ p c = true.
Proof.
  split.
  - intro H. inversion H. subst. eauto.
  - intros (c & -> & H). constructor. exact H.
Qed.

Lemma Matches_Seq_inv r1 r2 s :
  Matches (Regex.Seq r1 r2) s
  <-> exists s1 s2, s = s1 ++ s2 /\ Matches r1 s1 /\ Matches r2 s2.
Proof.
  split.
  - intro H. inversion H. subst. eauto.
  - intros (s1 & s2 & -> & H1 & H2). constructor; assumption.
Qed.

Lemma Matches_Or_inv r1 r2 s :
  Matches (Regex.Or r1 r2) s <-> Matches r1 s \/ Matches r2 s.
Proof.
  split.
  - intro H. inversion H; subst; auto.
  - intros [H|H]; [apply Matches_Or_left|apply Matches_Or_right]; exact H.
Qed.

Lemma nullable_Matches r : Regex.nullable r = true <-> Matches r "".
Proof.
  induction r as [| |p|r1 IH1 r2 IH2|r1 IH1 r2 IH2|r IH]; cbn.
  - split; intro H; [discriminate|destruct (Matches_Never_inv _ H)].
  - split; intro H; [constructor|reflexivity].
  - split; intro H; [discriminate|].
    apply Matches_Class_inv in H as (c & H & _). discriminate.
  - rewrite andb_true_iff, IH1, IH2, Matches_Seq_inv. split.
    + intros [H1 H2]. exists "", "". auto.
    + intros (s1 & s2 & Heq & H1 & H2). symmetry in Heq.
      apply append_empty in Heq as [-> ->]. auto.
  - rewrite orb_true_iff, IH1, IH2, Matches_Or_inv. tauto.
  - split; intro H; [constructor|reflexivity].
Qed.

(** A non-empty match of [r*] starts with a non-empty match of [r]. *)
Lemma Matches_Many_first r s :
  Matches (Regex.Many r) s ->
  forall c rest, s = String c rest ->
    exists s1 s2,
      rest = s1 ++ s2 /\ Matches r (String c s1) /\ Matches (Regex.Many r) s2.
Proof.
  intro H. remember (Regex.Many r) as rr eqn:Hrr.
  induction H as [| | | | | |r' s1 s2 H1 _ H2 IH2]; try discriminate Hrr.
  - intros c rest Heq. discriminate.
  - injection Hrr as ->. intros c rest Heq.
    destruct s1 as [|c1 s1]; cbn in Heq.
    + apply (IH2 eq_refl c rest Heq).
    + injection Heq as -> <-. exists s1, s2. auto.
Qed.

Lemma derive_Matches r : forall c s,
  Matches (Regex.derive c r) s <-> Matches r (String c s).
Proof.
  induction r as [| |p|r1 IH1 r2 IH2|r1 IH1 r2 IH2|r IH]; intros c s; cbn.
  - split; intro H; destruct (Matches_Never_inv _ H).
  - split; intro H; [destruct (Matches_Never_inv _ H)|].
    apply Matches_Empty_inv in H. discriminate.
  - rewrite Matches_Class_inv. destruct (p c) eqn:Hp.
    + rewrite Matches_Empty_inv. split.
      * intro Hs. subst s. eauto.
      * intros (c' & Heq & _). injection Heq as _ Hs. exact Hs.
    + split; [intro H; destruct (Matches_Never_inv _ H)|].
      intros (c' & Heq & H). injection Heq as Hc _. subst c'. congruence.
  - assert (Hseq : Matches (Regex.Seq (Regex.derive c r1) r2) s
                   <-> exists s1 s2, s = s1 ++ s2
                         /\ Matches r1 (String c s1) /\ Matches r2 s2).
    { rewrite Matches_Seq_inv. split; intros (s1 & s2 & Heq & H1 & H2);
        exists s1, s2; (split; [exact Heq|]); (split; [apply IH1|]); assumption. }
    assert (Hsplit : Matches (Regex.Seq r1 r2) (String c s)
                     <-> (exists s1 s2, s = s1 ++ s2
                            /\ Matches r1 (String c s1) /\ Matches r2 s2)
                         \/ (Matches r1 "" /\ Matches r2 (String c s))).
    { rewrite Matches_Seq_inv. split.
      - intros (s1 & s2 & Heq & H1 & H2). destruct s1 as [|c1 s1]; cbn in Heq.
        + right. subst s2. auto.
        + injection Heq as <- ->. left. eauto.
      - intros [(s1 & s2 & -> & H1 & H2)|[H1 H2]].
        + exists (String c s1), s2. auto.
        + exists "", (String c s). auto. }
    rewrite Hsplit. destruct (Regex.nullable r1) eqn:Hnull.
    + rewrite Matches_Or_inv, Hseq, IH2.
      apply nullable_Matches in Hnull. tauto.
    + rewrite Hseq. split; [auto|].
      intros [H|[H _]]; [exact H|].
      apply nullable_Matches in H. congruence.
  - rewrite !Matches_Or_inv, IH1, IH2. tauto.
  - rewrite Matches_Seq_inv. split.
    + intros (s1 & s2 & -> & H1 & H2).
      change (String c (s1 ++ s2)) with (String c s1 ++ s2).
      constructor; [apply IH|]; assumption.
    + intro H.
      destruct (Matches_Many_first r (String c s) H c s eq_refl)
        as (s1 & s2 & -> & H1 & H2).
      exists s1, s2. split; [reflexivity|]. split; [apply IH|]; assumption.
Qed.

Lemma test_Matches s : forall r, Regex.test r s = true <-> Matches r s.
Proof.
  induction s as [|c s IH]; intro r; cbn.
  - apply nullable_Matches.
  - rewrite IH. apply derive_Matches.
Qed.

Lemma Matches_Many_Class p s :
  Matches (Regex.Many (Regex.Class p)) s <-> every p s = true.
Proof.
  split.
  - intro H. remember (Regex.Many (Regex.Class p)) as r eqn:Hr.
    induction H as [| | | | | |r' s1 s2 H1 _ H2 IH2]; try discriminate Hr.
    + reflexivity.
    + injection Hr as ->.
      apply Matches_Class_inv in H1 as (c & -> & Hc).
      cbn. apply andb_true_iff. auto.
  - induction s as [|c s IH]; cbn; intro H; [constructor|].
    apply andb_true_iff in H as [Hc Hs].
    change (String c s) with (String c "" ++ s).
    constructor; [constructor; exact Hc|apply IH; exact Hs].
Qed.

Lemma Matches_Plus_Class p s :
  Matches (Regex.Plus (Regex.Class p)) s <-> s <> "" /\ every p s = true.
Proof.
  unfold Regex.Plus. rewrite Matches_Seq_inv. split.
  - intros (s1 & s2 & -> & H1 & H2).
    apply Matches_Class_inv in H1 as (c & -> & Hc).
    apply Matches_Many_Class in H2. cbn. split; [discriminate|].
    apply andb_true_iff. auto.
  - intros [Hne H]. destruct s as [|c s]; [contradiction|]. cbn in H.
    apply andb_true_iff in H as [Hc Hs].
    exists (String c ""), s. split; [reflexivity|].
    split; [constructor; exact Hc|apply Matches_Many_Class; exact Hs].
Qed.

Lemma Matches_AtLeast_Class p n : forall s,
  Matches (Regex.AtLeast n (Regex.Class p)) s
  <-> n <= String.length s /\ every p s = true.
Proof.
  induction n as [|n IH]; intro s; cbn [Regex.AtLeast].
  - rewrite Matches_Many_Class. split; [intro; split; [lia|assumption]|tauto].
  - rewrite Matches_Seq_inv. split.
    + intros (s1 & s2 & -> & H1 & H2).
      apply Matches_Class_inv in H1 as (c & -> & Hc).
      apply IH in H2 as [Hlen Hall]. cbn.
      split; [lia|]. apply andb_true_iff. auto.
    + intros [Hlen H]. destruct s as [|c s]; cbn in Hlen; [lia|]. cbn in H.
      apply andb_true_iff in H as [Hc Hs].
      exists (String c ""), s. split; [reflexivity|].
      split; [constructor; exact Hc|apply IH; split; [lia|exact Hs]].
Qed.

Lemma Matches_Char c s : Matches (Regex.Char c) s <-> s = String c "".
Proof.
  unfold Regex.Char. rewrite Matches_Class_inv. split.
  - intros (c' & -> & H). apply Ascii.eqb_eq in H. subst. reflexivity.
  - intros ->. exists c. split; [reflexivity|apply Ascii.eqb_refl].
Qed.

(** ** What [validateSearchInput] accepts *)

Lemma validate_phone query :
  validateSearchInput query "phone"
  = if Regex.test phoneRegex query then Normal true
    else Throw "Invalid phone number format".
Proof.
  unfold validateSearchInput.
  destruct (Regex.test phoneRegex query); reflexivity.
Qed.

Lemma validate_email query :
  validateSearchInput query "email"
  = if Regex.test emailRegex query then Normal true
    else Throw "Invalid email format".
Proof.
  unfold validateSearchInput.
  destruct (Regex.test emailRegex query); reflexivity.
Qed.

Lemma every_impl (p q : ascii -> bool) s :
  (forall c, p c = true -> q c = true) -> every p s = true -> every q s = true.
Proof.
  intro Hpq. induction s as [|c s IH]; cbn; [reflexivity|].
  intro H. apply andb_true_iff in H as [Hc Hs].
  apply andb_true_iff. auto.
Qed.

Lemma trim_blank s : every is_space s = true -> trim s = "".
Proof.
  unfold trim. induction s as [|c s IH]; cbn; [reflexivity|].
  intro H. apply andb_true_iff in H as [-> Hs]. auto.
Qed.

Lemma trim_starts c rest : is_space c = false -> trim (String c rest) <> "".
Proof.
  intro H. unfold trim. cbn [trimStart]. rewrite H. cbn [trimEnd].
  rewrite H. discriminate.
Qed.

(** X1. [validateSearchInput] accepts as a phone number exactly the strings
    that, after an optional leading [+], consist of at least ten characters,
    each a digit, a white space character or a dash; on every other string it
    throws ["Invalid phone number format"]. *)
Theorem phone_numbers_accepted query :
  (validateSearchInput query "phone" = Normal true
   \/ validateSearchInput query "phone" = Throw "Invalid phone number format")
  /\ (validateSearchInput query "phone" = Normal true
      <-> exists body,
            (query = body \/ query = String "+" body)
            /\ 10 <= String.length body
            /\ every digit_space_or_dash body = true).
Proof.
  rewrite validate_phone.
  split; [destruct (Regex.test phoneRegex query); auto|].
  transitivity (Matches phoneRegex query).
  { rewrite <- test_Matches. destruct (Regex.test phoneRegex query);
      split; intro H; try reflexivity; discriminate. }
  unfold phoneRegex, Regex.Opt. rewrite Matches_Seq_inv. split.
  - intros (s1 & s2 & -> & H1 & H2).
    apply Matches_AtLeast_Class in H2 as [Hlen Hall].
    exists s2. split; [|auto].
    apply Matches_Or_inv in H1 as [H1|H1].
    + apply Matches_Char in H1 as ->. right. reflexivity.
    + apply Matches_Empty_inv in H1 as ->. left. reflexivity.
  - intros (body & Hquery & Hlen & Hall).
    assert (Hbody : Matches (Regex.AtLeast 10 (Regex.Class digit_space_or_dash)) body)
      by (apply Matches_AtLeast_Class; auto).
    destruct Hquery as [->| ->].
    + exists "", body. split; [reflexivity|]. split; [|exact Hbody].
      apply Matches_Or_right. constructor.
    + exists "+", body. split; [reflexivity|]. split; [|exact Hbody].
      apply Matches_Or_left. apply Matches_Char. reflexivity.
Qed.

(** X2. [validateSearchInput] accepts as an email address exactly the
    strings [user@domain.suffix] whose three parts are not empty and contain
    neither white space nor [@]; on every other string it throws ["Invalid
    email format"]. *)
Theorem email_addresses_accepted query :
  (validateSearchInput query "email" = Normal true
   \/ validateSearchInput query "email" = Throw "Invalid email format")
  /\ (validateSearchInput query "email" = Normal true
      <-> exists user domain suffix,
            query = user ++ "@" ++ domain ++ "." ++ suffix
            /\ user <> "" /\ domain <> "" /\ suffix <> ""
            /\ every not_space_or_at user = true
            /\ every not_space_or_at domain = true
            /\ every not_space_or_at suffix = true).
Proof.
  rewrite validate_email.
  split; [destruct (Regex.test emailRegex query); auto|].
  transitivity (Matches emailRegex query).
  { rewrite <- test_Matches. destruct (Regex.test emailRegex query);
      split; intro H; try reflexivity; discriminate. }
  unfold emailRegex. split.
  - intro H.
    apply Matches_Seq_inv in H as (user & s1 & -> & Huser & H).
    apply Matches_Seq_inv in H as (at_sign & s2 & -> & Hat & H).
    apply Matches_Seq_inv in H as (domain & s3 & -> & Hdomain & H).
    apply Matches_Seq_inv in H as (dot & suffix & -> & Hdot & Hsuffix).
    apply Matches_Char in Hat as ->. apply Matches_Char in Hdot as ->.
    apply Matches_Plus_Class in Huser as [? ?].
    apply Matches_Plus_Class in Hdomain as [? ?].
    apply Matches_Plus_Class in Hsuffix as [? ?].
    exists user, domain, suffix. auto 10.
  - intros (user & domain & suffix & -> & ? & ? & ? & ? & ? & ?).
    repeat (apply Matches_Seq; try (apply Matches_Char; reflexivity);
            try (apply Matches_Plus_Class; auto)).
Qed.

(** X3. An email address that [validateSearchInput] accepts passes the
    validation of [performSearch]: the run on it returns, with a result for
    every platform. *)
Theorem accepted_email_is_searched {host : Host} (world : World)
  query platforms m :
  validateSearchInput query "email" = Normal true ->
  exists rs m',
    performSearch world query "email" platforms m = (Normal rs, m')
    /\ length rs = length platforms.
Proof.
  intro H.
  assert (Hmatch : Matches emailRegex query).
  { apply test_Matches. rewrite validate_email in H.
    destruct (Regex.test emailRegex query); [reflexivity|discriminate]. }
  assert (Htrim : trim query <> "").
  { unfold emailRegex in Hmatch.
    apply Matches_Seq_inv in Hmatch as (user & rest & -> & Huser & _).
    apply Matches_Plus_Class in Huser as [Hne Hall].
    destruct user as [|c user]; [contradiction|]. cbn in Hall.
    apply andb_true_iff in Hall as [Hc _].
    apply trim_starts. unfold not_space_or_at in Hc.
    apply negb_true_iff, orb_false_iff in Hc. tauto. }
  destruct (performSearch_returns world query "email" platforms m Htrim)
    as (rs & events & m' & Hrun & Hturns & _); [cbn; tauto|].
  exists rs, m'. split; [exact Hrun|].
  eapply Turns_length; eassumption.
Qed.

Lemma accepted_email_is_searched_example :
  validateSearchInput "a@b.c" "email" = Normal true
  /\ exists rs m',
       performSearch Scenario.served "a@b.c" "email" ["reddit"] Scenario.fresh
       = (Normal rs, m')
       /\ length rs = 1.
Proof.
  split; [reflexivity|].
  apply (@accepted_email_is_searched Reference.host Scenario.served "a@b.c"
           ["reddit"] Scenario.fresh).
  reflexivity.
Defined.

(** X4. A query of white space only is rejected by [performSearch] whatever
    its type, before any request, although [validateSearchInput] accepts it
    as a name from two characters on, as a username from three and as a
    phone number from ten. *)
Theorem blank_queries {host : Host} (world : World) query platforms m :
  every is_space query = true ->
  (forall type, aborts_before_search world query type platforms m)
  /\ (2 <= String.length query -> validateSearchInput query "name" = Normal true)
  /\ (3 <= String.length query ->
      validateSearchInput query "username" = Normal true)
  /\ (10 <= String.length query ->
      validateSearchInput query "phone" = Normal true).
Proof.
  intro Hblank. split; [|split; [|split]].
  - intro type.
    destruct (performSearch_outcome world query type platforms m)
      as [(message & Hrun & _)|(Hquery & _)].
    + exists message. eexists. split; [exact Hrun|reflexivity].
    + contradiction Hquery. apply trim_blank. exact Hblank.
  - intro Hlen. unfold validateSearchInput.
    destruct (Nat.ltb_spec (String.length query) 2); [lia|reflexivity].
  - intro Hlen. unfold validateSearchInput.
    destruct (Nat.ltb_spec (String.length query) 3); [lia|reflexivity].
  - intro Hlen. rewrite validate_phone.
    replace (Regex.test phoneRegex query) with true; [reflexivity|].
    symmetry. apply test_Matches. unfold phoneRegex, Regex.Opt.
    change query with ("" ++ query).
    constructor; [apply Matches_Or_right; constructor|].
    apply Matches_AtLeast_Class. split; [exact Hlen|].
    eapply every_impl; [|exact Hblank].
    intros c Hc. unfold digit_space_or_dash. rewrite Hc.
    rewrite orb_true_r. reflexivity.
Qed.

Lemma blank_queries_example :
  every is_space "          " = true
  /\ aborts_before_search Scenario.served "          " "phone" ["reddit"]
                          Scenario.fresh
  /\ validateSearchInput "          " "phone" = Normal true.
Proof.
  split; [reflexivity|].
  destruct (@blank_queries Reference.host Scenario.served "          "
              ["reddit"] Scenario.fresh eq_refl)
    as (Habort & _ & _ & Hphone).
  split; [apply Habort|apply Hphone; cbn; lia].
Defined.

(** ** Results of a run, one by one *)

Section Entries.

Context {host : Host}.
Variable world : World.

(** The entry at index [i] of a run is the result of the call of
    [searchPlatform] on the [i]-th platform. *)
Lemma performSearch_entry query type platforms m i p :
  trim query <> "" -> In type search_types ->
  nth_error platforms i = Some p ->
  exists rs m' r mi console,
    performSearch world query type platforms m = (Normal rs, m')
    /\ nth_error rs i = Some r
    /\ fetches mi = fetches m + i
    /\ clock_reads mi = clock_reads m + i
    /\ searchPlatform world p query type mi
       = (Normal r, after_search (search_request p query type) r console mi).
Proof.
  intros Hquery Htype Hp.
  destruct (performSearch_returns world query type platforms m Hquery Htype)
    as (rs & events & m' & Hrun & Hturns & _).
  destruct (Turns_nth world _ _ _ _ _ _ _ _ _ Hturns i p Hp)
    as (r & console & Hr & (mi & Hf & Hc & Hsearch)).
  exists rs, m', r, mi, console. auto.
Qed.

(** What [searchPlatform] returns when the response is ok and its body is
    read: the formatter's result, or the error result for what the
    formatter threw. *)
Lemma searchPlatform_formatted p query type m response data :
  fetch world (fetches m) (search_request p query type) = Fulfilled response ->
  ok response = true ->
  json response = Normal data ->
  fst (searchPlatform world p query type m)
  = match formatSearchResult world p data query type
            (requested (search_request p query type) m) with
    | (Normal r, _) => Normal r
    | (Throw message, _) =>
        Normal (error_result p message (now world (clock_reads m)))
    end.
Proof.
  intros Hfetch Hok Hjson.
  unfold searchPlatform, try_catch, searchPlatform_try, bind, fetch_call.
  rewrite Hfetch, Hok. cbn [negb]. unfold ret, lift. cbn beta iota.
  rewrite Hjson.
  fold (requested (search_request p query type) m).
  destruct (formatSearchResult_formats world p data query type
              (requested (search_request p query type) m))
    as [(r & -> & _)|(message & ->)]; reflexivity.
Qed.

(** X7. A GitHub answer that counts users but lists none is recorded as an
    error: with a positive [total_count], the formatter reads the login of
    the first item, and when [items] is empty or missing that read throws a
    TypeError, which [searchPlatform] turns into the error result. *)
Theorem github_count_without_items query type m response fields :
  fetch world (fetches m) (search_request "github" query type)
  = Fulfilled response ->
  ok response = true ->
  json response = Normal (JObject fields) ->
  Js.greater_than_zero (Js.own "total_count" fields) = Normal true ->
  (Js.own "items" fields = JArray [] ->
   fst (searchPlatform world "github" query type m)
   = Normal (error_result "github" (cannot_read "undefined" "login")
                          (now world (clock_reads m))))
  /\ (Js.own "items" fields = JUndefined ->
      fst (searchPlatform world "github" query type m)
      = Normal (error_result "github" (cannot_read "undefined" "0")
                             (now world (clock_reads m)))).
Proof.
  intros Hfetch Hok Hjson Hcount.
  rewrite (searchPlatform_formatted "github" query type m response
             (JObject fields) Hfetch Hok Hjson).
  unfold formatSearchResult. cbn [String.eqb Ascii.eqb Bool.eqb].
  unfold formatGithubResult.
  rewrite !bind_lift. cbn [Js.Get and_then]. rewrite Hcount.
  split; intro Hitems; rewrite !bind_lift; cbn [Js.Get and_then];
    rewrite Hitems; reflexivity.
Qed.

End Entries.

(** ** The engine against the repository's server *)

Section Served.

Context {host : Host}.

Variable encodeURIComponent : string -> string.
Variable vendor : forall (platform query type : string),
  Completion (list (string * @Js.val host)).
Variable stack : string -> option string.
Variable limiter : nat -> option Response.
Variable off_route : nat -> Request -> Settled.
Variable clock : nat -> string.

Abbreviation served :=
  (Server.world encodeURIComponent vendor stack limiter off_route clock).

Abbreviation handler := (Server.handlePlatformSearch encodeURIComponent vendor).

Abbreviation endpoint := (Server.search_endpoint encodeURIComponent vendor stack).

Lemma served_reply p query type n :
  Server.plain p = true ->
  limiter n = None ->
  fetch served n (search_request p query type)
  = Fulfilled (endpoint p (body (search_request p query type))).
Proof.
  intros Hplain Hlimiter. cbn [fetch Server.world]. unfold Server.serve.
  rewrite (route_search_request p query type Hplain), Hlimiter. reflexivity.
Qed.

Lemma own_assign_same key v (fields : list (string * @Js.val host)) :
  Js.own key (Server.assign key v fields) = v.
Proof.
  unfold Js.own. induction fields as [|[k w] fields IH]; cbn.
  - rewrite String.eqb_refl. reflexivity.
  - destruct (String.eqb_spec k key) as [->|Hk]; cbn.
    + rewrite String.eqb_refl. reflexivity.
    + apply String.eqb_neq in Hk. rewrite Hk. exact IH.
Qed.

Lemma own_assign_other key key' v (fields : list (string * @Js.val host)) :
  key' <> key ->
  Js.own key' (Server.assign key v fields) = Js.own key' fields.
Proof.
  intro Hne. unfold Js.own. induction fields as [|[k w] fields IH]; cbn.
  - destruct (String.eqb_spec key key'); [congruence|reflexivity].
  - destruct (String.eqb_spec k key) as [->|Hk]; cbn.
    + destruct (String.eqb_spec key key'); [congruence|reflexivity].
    + destruct (k =? key'); [reflexivity|exact IH].
Qed.

(** X5. When the handler of a platform returns, the endpoint answers with
    status 200 and the handler's object in which [query] is the request's
    query and [type] the request's type, ['search'] when the request names
    none; these two replace fields of the same names, and every other field
    is the handler's. *)
Theorem endpoint_echoes_the_request p query type result :
  query <> "" ->
  handler p query (if type =? "" then "search" else type) = Normal result ->
  exists answer,
    endpoint p {| payload_query := query; payload_type := type;
                  countryCode := "IN" |}
    = {| http_status := 200; json := Normal (JObject answer) |}
    /\ Js.own "query" answer = JString query
    /\ Js.own "type" answer = JString (if type =? "" then "search" else type)
    /\ (forall key, key <> "query" -> key <> "type" ->
          Js.own key answer = Js.own key result).
Proof.
  intros Hquery Hresult. unfold Server.search_endpoint.
  cbn [payload_query payload_type].
  destruct (String.eqb_spec query ""); [contradiction|].
  rewrite Hresult. eexists. split; [reflexivity|].
  split; [|split].
  - rewrite own_assign_other by discriminate. apply own_assign_same.
  - apply own_assign_same.
  - intros key Hq Ht. rewrite !own_assign_other by assumption. reflexivity.
Qed.

(** The result of the search of [p] through the server, when the limiter
    lets the request through and the handler returns [result]. *)
Lemma searchPlatform_served p query type m result :
  Server.plain p = true ->
  limiter (fetches m) = None ->
  query <> "" ->
  type <> "" ->
  handler p query type = Normal result ->
  fst (searchPlatform served p query type m)
  = match formatSearchResult served p
            (JObject (Server.assign "type" (JString type)
                        (Server.assign "query" (JString query) result)))
            query type (requested (search_request p query type) m) with
    | (Normal r, _) => Normal r
    | (Throw message, _) =>
        Normal (error_result p message (clock (clock_reads m)))
    end.
Proof.
  intros Hplain Hlimiter Hquery Htype Hresult.
  apply (searchPlatform_formatted served p query type m
           (endpoint p (body (search_request p query type)))).
  - apply served_reply; assumption.
  - unfold Server.search_endpoint. cbn [body search_request payload_query payload_type].
    destruct (String.eqb_spec query ""); [contradiction|].
    destruct (String.eqb_spec type ""); [contradiction|].
    rewrite Hresult. reflexivity.
  - unfold Server.search_endpoint. cbn [body search_request payload_query payload_type].
    destruct (String.eqb_spec query ""); [contradiction|].
    destruct (String.eqb_spec type ""); [contradiction|].
    rewrite Hresult. reflexivity.
Qed.

Lemma search_type_not_empty type : In type search_types -> type <> "".
Proof.
  unfold search_types. cbn [In].
  intros [<-|[<-|[<-|[<-|[]]]]]; discriminate.
Qed.

Lemma trim_not_empty query : trim query <> "" -> query <> "".
Proof. intros H ->. apply H. reflexivity. Qed.



(** X12. The requests of a run and the endpoint fit.  For a platform named
    with letters, digits, dashes and underscores, a query and a type that
    [performSearch] accepts, and a request that the limiter lets through,
    the endpoint never answers 400 ["Query is required"] and never puts
    ['search'] in the place of the type: [handlePlatformSearch] is called
    with the platform, the query and the type of the run, and the answer is
    200 with its object when it returns and 500 with its message when it
    throws. *)
Theorem requests_reach_their_route p query type n :
  Server.plain p = true ->
  trim query <> "" -> In type search_types ->
  limiter n = None ->
  fetch served n (search_request p query type)
  = Fulfilled
      match handler p query type with
      | Normal result =>
          {| http_status := 200;
             json := Normal (JObject
                       (Server.assign "type" (JString type)
                          (Server.assign "query" (JString query) result))) |}
      | Throw message =>
          {| http_status := 500;
             json := Normal (JObject
                       ([ ("error", JString message);
                          ("query", JString query);
                          ("type", JString type) ]
                        ++ match stack message with
                           | Some text => [("stack", JString text)]
                           | None => []
                           end)) |}
      end.
Proof.
  intros Hplain Hquery Htype Hlimiter.
  rewrite (served_reply p query type n Hplain Hlimiter).
  unfold Server.search_endpoint.
  cbn [body search_request payload_query payload_type].
  destruct (String.eqb_spec query "") as [->|_];
    [exfalso; apply Hquery; reflexivity|].
  destruct (String.eqb_spec type "") as [Hempty|_];
    [exfalso; exact (search_type_not_empty type Htype Hempty)|].
  reflexivity.
Qed.

End Served.

(** X12 on the server: the request for [reddit] is answered with the
    handler's object, the request for [unknown-platform] with the
    handler's message. *)
Lemma requests_reach_their_route_example :
  (Server.plain "reddit" = true /\ Server.plain "unknown-platform" = true
   /\ trim "octocat" <> "" /\ In "username" search_types)
  /\ fetch Scenario.served 0 (search_request "reddit" "octocat" "username")
     = Fulfilled
         {| http_status := 200;
            json := Normal (JObject
                      [ ("found", JBool true);
                        ("url", JString "https://www.reddit.com/user/octocat");
                        ("description",
                         JString "Reddit user profile for octocat");
                        ("status", JString "found");
                        ("query", JString "octocat");
                        ("type", JString "username") ]) |}
  /\ fetch Scenario.served 1
           (search_request "unknown-platform" "octocat" "username")
     = Fulfilled
         {| http_status := 500;
            json := Normal (JObject
                      [ ("error",
                         JString "Platform unknown-platform not supported");
                        ("query", JString "octocat");
                        ("type", JString "username") ]) |}.
Proof.
  assert (Hquery : trim "octocat" <> "") by (vm_compute; discriminate).
  assert (Htype : In "username" search_types) by (cbn; tauto).
  split; [auto|]. split.
  - exact (@requests_reach_their_route Reference.host
             (fun text => text)
             (fun _ _ _ => Normal [("found", JBool false)])
             (fun _ => None) (fun _ => None)
             (fun _ _ => Fulfilled Scenario.not_found)
             Scenario.instant
             "reddit" "octocat" "username" 0 eq_refl Hquery Htype eq_refl).
  - exact (@requests_reach_their_route Reference.host
             (fun text => text)
             (fun _ _ _ => Normal [("found", JBool false)])
             (fun _ => None) (fun _ => None)
             (fun _ _ => Fulfilled Scenario.not_found)
             Scenario.instant
             "unknown-platform" "octocat" "username" 1 eq_refl Hquery Htype
             eq_refl).
Defined.



Lemma endpoint_echoes_the_request_example :
  ("octocat" <> "")
  /\ exists answer,
       Server.search_endpoint (fun text => text)
         (fun _ _ _ => Normal [("found", JBool false);
                               ("query", @JString (@number Reference.host) "theirs")])
         (fun _ => None) "github"
         {| payload_query := "octocat"; payload_type := "";
            countryCode := "IN" |}
       = {| http_status := 200; json := Normal (JObject answer) |}
       /\ Js.own "query" answer = JString "octocat"
       /\ Js.own "type" answer = JString "search"
       /\ Js.own "found" answer = JBool false.
Proof.
  split; [discriminate|].
  destruct (@endpoint_echoes_the_request Reference.host (fun text => text)
              (fun _ _ _ => Normal [("found", JBool false);
                                    ("query", JString "theirs")])
              (fun _ => None) "github" "octocat" ""
              [("found", JBool false); ("query", JString "theirs")])
    as (answer & Hanswer & Hquery & Htype & Hother);
    [discriminate|reflexivity|].
  exists answer. split; [exact Hanswer|]. split; [exact Hquery|].
  split; [exact Htype|].
  rewrite Hother by discriminate. reflexivity.
Defined.

(** ** The page *)

Section Page.

Context {host : Host}.
Variable world : World.

Lemma search_turn_page query type p m :
  exists m',
    search_turn world query type p m = (Normal tt, m')
    /\ has_progress_bar (document m') = has_progress_bar (document m)
    /\ (has_progress_bar (document m) = false -> document m' = document m).
Proof.
  unfold search_turn, try_catch.
  unfold bind at 1. unfold read_this at 1.
  unfold bind at 1. unfold updateProgress at 1.
  unfold bind at 1.
  match goal with
  | |- context [searchPlatform world p query type ?m0] =>
      destruct (searchPlatform_returns world p query type m0)
        as (r & console & Hrun & _); rewrite Hrun
  end.
  eexists. split; [reflexivity|].
  cbn. unfold has_progress_bar.
  destruct (document m) as [[fill|] [text|]]; cbn;
    (split; [reflexivity|first [discriminate|intros _; reflexivity]]).
Qed.

Lemma search_each_page query type platforms : forall m,
  exists m',
    search_each world query type platforms m = (Normal tt, m')
    /\ has_progress_bar (document m') = has_progress_bar (document m)
    /\ (has_progress_bar (document m) = false -> document m' = document m).
Proof.
  induction platforms as [|p platforms IH]; intro m.
  - exists m. cbn. auto.
  - destruct (search_turn_page query type p m)
      as (m1 & Hturn & Hsame1 & Hkept1).
    destruct (IH m1) as (m' & Heach & Hsame & Hkept).
    exists m'. cbn [search_each]. unfold bind. rewrite Hturn.
    split; [exact Heach|]. split.
    + rewrite Hsame. exact Hsame1.
    + intro Hnone. rewrite Hkept by (rewrite Hsame1; exact Hnone). auto.
Qed.

(** X9. A run that returns leaves the progress bar full: on a page that has
    both progress elements the bar's width is 100 and the text is ["Search
    completed!"].  On a page that lacks one of them the run changes nothing
    of the page, and neither does a run that stops in validation. *)
Theorem run_fills_the_progress_bar query type platforms m :
  (forall rs m',
      performSearch world query type platforms m = (Normal rs, m') ->
      document m'
      = if has_progress_bar (document m)
        then {| progressFill := Some 100%Q;
                progressText := Some "Search completed!" |}
        else document m)
  /\ (forall message m',
        performSearch world query type platforms m = (Throw message, m') ->
        document m' = document m).
Proof.
  split.
  2:{ intros message m' H. apply performSearch_throws in H as [-> _].
      reflexivity. }
  intros rs m'. unfold performSearch.
  unfold bind at 1. unfold update_this at 1.
  unfold bind at 1.
  destruct ((query =? "") || (trim query =? ""));
    [unfold throw; discriminate|].
  unfold ret at 1. unfold bind at 1.
  destruct ((type =? "") || negb (includes type search_types));
    [unfold throw; discriminate|].
  unfold ret at 1. unfold bind at 1. unfold updateProgress at 1.
  unfold bind at 1.
  match goal with
  | |- context [search_each world query type platforms ?m0] =>
      destruct (search_each_page query type platforms m0)
        as (m1 & Heach & Hsame & Hkept); rewrite Heach
  end.
  unfold bind, updateProgress, read_this, ret. intros [= _ <-].
  cbn in Hsame, Hkept |- *.
  unfold has_progress_bar in *.
  destruct (document m) as [[fill|] [text|]];
    cbn in Hsame, Hkept |- *;
    try (rewrite Hkept by reflexivity; reflexivity).
  destruct (document m1) as [[fill1|] [text1|]];
    try discriminate; reflexivity.
Qed.

End Page.

Lemma run_fills_the_progress_bar_example :
  exists rs m',
    performSearch Scenario.example "octocat" "username" Scenario.three
                  Scenario.fresh = (Normal rs, m')
    /\ document m' = {| progressFill := Some 100%Q;
                        progressText := Some "Search completed!" |}.
Proof.
  remember (performSearch Scenario.example "octocat" "username" Scenario.three
              Scenario.fresh) as run eqn:Hrun.
  destruct run as [[rs|message] m'].
  - exists rs, m'. split; [reflexivity|].
    apply (proj1 (@run_fills_the_progress_bar Reference.host Scenario.example
                    "octocat" "username" Scenario.three Scenario.fresh) rs m').
    symmetry. exact Hrun.
  - vm_compute in Hrun. discriminate.
Defined.

(** ** The weighted choice *)

Section WeightedFacts.

Variable num : Type.
Variable zero : num.
Variable plus : num -> option num -> num.
Variable le : num -> num -> bool.
Context {A : Type}.

Lemma weighted_loop_In random weights (remaining : list A) :
  forall weightSum i c,
  weighted_loop num plus le random weightSum weights i remaining = Some c ->
  In c remaining.
Proof.
  induction remaining as [|choice rest IH]; intros weightSum i c; cbn.
  - discriminate.
  - destruct (le random (plus weightSum (nth_error weights i))).
    + intros [= <-]. auto.
    + intro H. right. eapply IH. exact H.
Qed.

Lemma weightSum_at_step weights i :
  weightSum_at num zero plus weights i
  = plus (match i with
          | 0 => zero
          | S j => weightSum_at num zero plus weights j
          end) (nth_error weights i).
Proof. destruct i; reflexivity. Qed.

(** The loop from index [i] on, entered with the sum of the weights before
    [i]: it returns the first choice at which the sum reaches [random]. *)
Lemma weighted_loop_first random weights (remaining : list A) :
  forall i j c,
  nth_error remaining j = Some c ->
  le random (weightSum_at num zero plus weights (i + j)) = true ->
  (forall k, k < j ->
     le random (weightSum_at num zero plus weights (i + k)) = false) ->
  weighted_loop num plus le random
    (match i with 0 => zero | S i' => weightSum_at num zero plus weights i' end)
    weights i remaining
  = Some c.
Proof.
  induction remaining as [|choice rest IH]; intros i j c Hc Hle Hbefore.
  - destruct j; discriminate Hc.
  - cbn [weighted_loop]. rewrite <- weightSum_at_step.
    destruct j as [|j].
    + rewrite Nat.add_0_r in Hle. rewrite Hle. exact Hc.
    + rewrite <- (Nat.add_0_r i) at 1. rewrite (Hbefore 0) by lia.
      apply (IH (S i) j c Hc).
      * replace (S i + j) with (i + S j) by lia. exact Hle.
      * intros k Hk. replace (S i + k) with (i + S k) by lia.
        apply Hbefore. lia.
Qed.

Lemma weighted_loop_none random weights (remaining : list A) :
  forall i,
  (forall k, k < length remaining ->
     le random (weightSum_at num zero plus weights (i + k)) = false) ->
  weighted_loop num plus le random
    (match i with 0 => zero | S i' => weightSum_at num zero plus weights i' end)
    weights i remaining
  = None.
Proof.
  induction remaining as [|choice rest IH]; intros i Hnone.
  - reflexivity.
  - cbn [weighted_loop]. rewrite <- weightSum_at_step.
    rewrite <- (Nat.add_0_r i) at 1. rewrite (Hnone 0) by (cbn; lia).
    apply (IH (S i)). intros k Hk. replace (S i + k) with (i + S k) by lia.
    apply Hnone. cbn. lia.
Qed.

(** X10. [weightedRandomChoice] returns one of the choices whatever the
    weights and the random number are; [undefined] only when there is no
    choice at all.  It returns the first choice at whose index the running
    total of the weights reaches the random number, and the last choice
    when no running total does (the weights are too small, missing or not
    numbers). *)
Theorem weighted_choice_is_a_choice random (choices : list A) weights :
  match weightedRandomChoice num zero plus le random choices weights with
  | Some choice => In choice choices
  | None => choices = []
  end
  /\ (forall i choice,
        nth_error choices i = Some choice ->
        le random (weightSum_at num zero plus weights i) = true ->
        (forall k, k < i ->
           le random (weightSum_at num zero plus weights k) = false) ->
        weightedRandomChoice num zero plus le random choices weights
        = Some choice)
  /\ ((forall k, k < length choices ->
         le random (weightSum_at num zero plus weights k) = false) ->
      weightedRandomChoice num zero plus le random choices weights
      = nth_error choices (length choices - 1)).
Proof.
  unfold weightedRandomChoice. split; [|split].
  - destruct (weighted_loop num plus le random zero weights 0 choices) as [c|] eqn:H.
    + eapply weighted_loop_In. exact H.
    + destruct (nth_error choices (length choices - 1)) as [c|] eqn:Hlast.
      * eapply nth_error_In. exact Hlast.
      * apply nth_error_None in Hlast.
        destruct choices; [reflexivity|]. cbn in Hlast. lia.
  - intros i choice Hchoice Hle Hbefore.
    rewrite (weighted_loop_first random weights choices 0 i choice Hchoice Hle Hbefore).
    reflexivity.
  - intro Hnone.
    rewrite (weighted_loop_none random weights choices 0 Hnone). reflexivity.
Qed.

End WeightedFacts.

(** X10 on three choices and the weights 1/4 and 1/4.  At the random
    number 1/2 the second running total reaches it; at 3/4 the totals are
    1/4, 1/2 and NaN, none reaches it, and the choice is the last one. *)
Lemma weighted_choice_example :
  weightedRandomChoice (option Q) (Some 0%Q) Scenario.add Scenario.at_most
    (Some (1 # 2)%Q) ["a"; "b"; "c"] [Some (1 # 4)%Q; Some (1 # 4)%Q]
  = Some "b"
  /\ weightedRandomChoice (option Q) (Some 0%Q) Scenario.add Scenario.at_most
       (Some (3 # 4)%Q) ["a"; "b"; "c"] [Some (1 # 4)%Q; Some (1 # 4)%Q]
     = Some "c".
Proof.
  split.
  - apply (proj1 (proj2 (@weighted_choice_is_a_choice (option Q) (Some 0%Q)
                   Scenario.add Scenario.at_most string (Some (1 # 2)%Q)
                   ["a"; "b"; "c"] [Some (1 # 4)%Q; Some (1 # 4)%Q])) 1 "b").
    + reflexivity.
    + reflexivity.
    + intros k Hk. assert (k = 0) as -> by lia. reflexivity.
  - apply (proj2 (proj2 (@weighted_choice_is_a_choice (option Q) (Some 0%Q)
                   Scenario.add Scenario.at_most string (Some (3 # 4)%Q)
                   ["a"; "b"; "c"] [Some (1 # 4)%Q; Some (1 # 4)%Q]))).
    intros k Hk. cbn in Hk.
    destruct k as [|[|[|k]]]; [reflexivity|reflexivity|reflexivity|lia].
Defined.

(** ** The two validators *)

(** X11. The two validators agree on names, which both accept from two
    characters on, and disagree on every type that is none of the four
    kinds: [validateInput] rejects it, [validateSearchInput] accepts it
    without a check. *)
Theorem validators_compared (isValidEmail isValidPhone isValidUsername
                               : string -> bool) query :
  (validateInput isValidEmail isValidPhone isValidUsername query "name" = true
   <-> validateSearchInput query "name" = Normal true)
  /\ (forall type, ~ In type search_types ->
        validateInput isValidEmail isValidPhone isValidUsername query type
        = false
        /\ validateSearchInput query type = Normal true)
  /\ (validateSearchInput query "name" = Normal true
      <-> 2 <= String.length query).
Proof.
  split; [|split];
    [| |unfold validateSearchInput; cbn [String.eqb Ascii.eqb Bool.eqb];
        destruct (Nat.ltb_spec (String.length query) 2) as [H|H];
        split; intro H0; try reflexivity; try lia; discriminate].
  - unfold validateInput, validateSearchInput.
    cbn [String.eqb Ascii.eqb Bool.eqb].
    destruct (Nat.ltb_spec (String.length query) 2) as [H|H];
      destruct (Nat.leb_spec 2 (String.length query)) as [H'|H'];
      try lia; split; intro H0; try reflexivity; discriminate.
  - intros type Htype. unfold validateInput, validateSearchInput.
    unfold search_types in Htype. cbn [In] in Htype.
    destruct (String.eqb_spec type "email");
      [subst type; exfalso; apply Htype; auto 10|].
    destruct (String.eqb_spec type "phone");
      [subst type; exfalso; apply Htype; auto 10|].
    destruct (String.eqb_spec type "username");
      [subst type; exfalso; apply Htype; auto 10|].
    destruct (String.eqb_spec type "name");
      [subst type; exfalso; apply Htype; auto 10|].
    auto.
Qed.

(** ** The direct searches *)

Section DirectFacts.

Context {host : Host}.
Variable world : World.
Variable vendors : nat -> ApiRequest -> Settled.

Local Open Scope run_scope.

(** The shape that the five direct searches share. *)
Lemma direct_search name key (request : string -> ApiRequest)
  (format : @Js.val host -> Run SearchResult) m :
  (forall data, formats world name (format data)) ->
  direct name
    (try_catch
       (k <- api_key key ;;
        response <- api_call vendors (request k) ;;
        data <- lift (json response) ;;
        result <- format data ;;
        ret (Some result))
       (fun message => throw (name ++ " API error: " ++ message)))
    m.
Proof.
  intro Hformat. unfold direct, try_catch, bind, api_key, api_call, lift, ret,
    throw.
  destruct (vendors (fetches m) _) as [response|message].
  2:{ right. do 2 eexists. split; reflexivity. }
  destruct (json response) as [data|message].
  2:{ right. do 2 eexists. split; reflexivity. }
  match goal with
  | |- context [format data ?m0] =>
      destruct (Hformat data m0)
        as [(r & -> & Hname & Hstatus & _)|(message & ->)]
  end.
  - left. do 2 eexists. split; [reflexivity|]. auto.
  - right. do 2 eexists. split; reflexivity.
Qed.


End DirectFacts.

(** ** Runs against a steady world *)

Section Steady.

Context {host : Host}.
Variable world : World.

Ltac both_step :=
  match goal with
  | |- context [bind (lift ?c) _ _] =>
      rewrite !(bind_lift c); destruct c
  | |- context [bind (Date_now _) _ _] => rewrite !bind_Date_now
  end.

Ltac both_formatters :=
  intros m1 m2; repeat both_step; cbn; auto.

Lemma formatSearchResult_alike platformKey data query type :
  alike (formatSearchResult world platformKey data query type).
Proof.
  unfold formatSearchResult.
  destruct (platformKey =? "truecaller");
    [unfold formatTruecallerResult; both_formatters|].
  destruct (platformKey =? "twitter");
    [unfold formatTwitterResult; both_formatters|].
  destruct (platformKey =? "github");
    [unfold formatGithubResult; both_formatters|].
  destruct (platformKey =? "whatsapp");
    [unfold formatWhatsAppResult; both_formatters|].
  destruct (platformKey =? "upi");
    [unfold formatUPIResult; both_formatters|].
  unfold formatDefaultResult; both_formatters.
Qed.

Lemma searchPlatform_alike p query type m1 m2 :
  fetch world (fetches m1) (search_request p query type)
  = fetch world (fetches m2) (search_request p query type) ->
  exists r1 r2,
    fst (searchPlatform world p query type m1) = Normal r1
    /\ fst (searchPlatform world p query type m2) = Normal r2
    /\ untimed r1 = untimed r2.
Proof.
  intro Hsame.
  unfold searchPlatform, try_catch, searchPlatform_try, bind, fetch_call.
  rewrite Hsame.
  destruct (fetch world (fetches m2) (search_request p query type))
    as [response|message].
  2:{ do 2 eexists. split; [reflexivity|]. split; reflexivity. }
  destruct (ok response); cbn [negb].
  2:{ do 2 eexists. split; [reflexivity|]. split; reflexivity. }
  unfold ret, lift. cbn beta iota.
  destruct (json response) as [data|message].
  2:{ do 2 eexists. split; [reflexivity|]. split; reflexivity. }
  match goal with
  | |- context [formatSearchResult world p data query type ?a] =>
      match goal with
      | |- context [formatSearchResult world p data query type ?b] =>
          lazymatch a with
          | b => fail
          | _ => pose proof (formatSearchResult_alike p data query type a b)
                   as Halike;
                 destruct (formatSearchResult world p data query type a)
                   as [[ra|ea] ma];
                 destruct (formatSearchResult world p data query type b)
                   as [[rb|eb] mb]
          end
      end
  end; cbn in Halike; try contradiction.
  - do 2 eexists. split; [reflexivity|]. split; [reflexivity|].
    first [exact Halike|symmetry; exact Halike].
  - subst. do 2 eexists. split; [reflexivity|]. split; reflexivity.
Qed.

Lemma Turns_alike query type platforms :
  steady world ->
  forall total n k done rs events,
    Turns world query type total n k done platforms rs events ->
    forall total' n' k' done' rs' events',
      Turns world query type total' n' k' done' platforms rs' events' ->
      map untimed rs = map untimed rs'.
Proof.
  intro Hsteady.
  induction platforms as [|p platforms IH];
    intros total n k done rs events H total' n' k' done' rs' events' H';
    inversion H; inversion H'; subst; [reflexivity|].
  cbn [map]. f_equal; [|eapply IH; eassumption].
  match goal with
  | H1 : searched world n k p query type ?r ?c,
    H2 : searched world n' k' p query type ?r' ?c' |- _ =>
      destruct H1 as (m1 & Hn1 & _ & Hrun1);
      destruct H2 as (m2 & Hn2 & _ & Hrun2)
  end.
  destruct (searchPlatform_alike p query type m1 m2
              (Hsteady (fetches m1) (fetches m2) _))
    as (r1 & r2 & H1 & H2 & Hsame).
  rewrite Hrun1 in H1. rewrite Hrun2 in H2. cbn in H1, H2.
  injection H1 as <-. injection H2 as <-. exact Hsame.
Qed.

(** X14. Against a world whose answers do not depend on how many requests
    came before, running the same search again gives the same results:
    whatever state two runs start from, their result lists agree in
    platform, status, URL, description and content, entry by entry; only
    the timestamps may differ. *)
Theorem runs_repeat query type platforms m1 m2 :
  steady world ->
  trim query <> "" -> In type search_types ->
  exists rs1 m1' rs2 m2',
    performSearch world query type platforms m1 = (Normal rs1, m1')
    /\ performSearch world query type platforms m2 = (Normal rs2, m2')
    /\ map untimed rs1 = map untimed rs2.
Proof.
  intros Hsteady Hquery Htype.
  destruct (performSearch_returns world query type platforms m1 Hquery Htype)
    as (rs1 & events1 & m1' & Hrun1 & Hturns1 & _).
  destruct (performSearch_returns world query type platforms m2 Hquery Htype)
    as (rs2 & events2 & m2' & Hrun2 & Hturns2 & _).
  exists rs1, m1', rs2, m2'. split; [exact Hrun1|]. split; [exact Hrun2|].
  eapply Turns_alike; eassumption.
Qed.

End Steady.

(** ** Edge answers *)

Section EdgeAnswers.

Context {host : Host}.
Variable world : World.

(** X15. An ok response whose body is the JSON value [null] is recorded as
    an error for every platform: the formatter's first read of a property
    of the body throws a TypeError, and the description names the read. *)
Theorem null_body_is_an_error p query type m response :
  fetch world (fetches m) (search_request p query type) = Fulfilled response ->
  ok response = true ->
  json response = Normal JNull ->
  In (first_read p) ["name"; "data"; "total_count"; "contacts"; "valid"; "found"]
  /\ fst (searchPlatform world p query type m)
     = Normal (error_result p (cannot_read "null" (first_read p))
                            (now world (clock_reads m))).
Proof.
  intros Hfetch Hok Hjson.
  rewrite (searchPlatform_formatted world p query type m response JNull
             Hfetch Hok Hjson).
  unfold formatSearchResult, first_read.
  destruct (p =? "truecaller"); [cbn; auto 10|].
  destruct (p =? "twitter"); [cbn; auto 10|].
  destruct (p =? "github"); [cbn; auto 10|].
  destruct (p =? "whatsapp"); [cbn; auto 10|].
  destruct (p =? "upi"); [cbn; auto 10|].
  cbn. auto 10.
Qed.

End EdgeAnswers.

(** ** The extras on the scenarios *)

Lemma github_count_without_items_example :
  fst (searchPlatform (Answering.always Answering.counted) "github" "octocat"
         "username" Scenario.fresh)
  = Normal (error_result "github"
              "Cannot read properties of undefined (reading 'login')"
              (Scenario.instant 0)).
Proof.
  apply (proj1 (@github_count_without_items Reference.host
                  (Answering.always Answering.counted) "octocat" "username"
                  Scenario.fresh _ _ eq_refl eq_refl eq_refl eq_refl)).
  reflexivity.
Defined.

Lemma null_body_is_an_error_example :
  fst (searchPlatform (Answering.always JNull) "reddit" "octocat" "username"
         Scenario.fresh)
  = Normal (error_result "reddit"
              "Cannot read properties of null (reading 'found')"
              (Scenario.instant 0)).
Proof.
  exact (proj2 (@null_body_is_an_error Reference.host (Answering.always JNull)
                  "reddit" "octocat" "username" Scenario.fresh _
                  eq_refl eq_refl eq_refl)).
Defined.

Lemma runs_repeat_example :
  (steady Scenario.example
   /\ trim "octocat" <> "" /\ In "username" search_types)
  /\ exists rs1 rs2 m2,
       fst (performSearch Scenario.example "octocat" "username" Scenario.three
              Scenario.fresh) = Normal rs1
       /\ performSearch Scenario.example "octocat" "username" Scenario.three
            (snd (performSearch Scenario.example "octocat" "username"
                    Scenario.three Scenario.fresh))
          = (Normal rs2, m2)
       /\ map untimed rs1 = map untimed rs2.
Proof.
  assert (Hsteady : steady Scenario.example)
    by (intros n n' request; reflexivity).
  split; [split; [exact Hsteady|split; [vm_compute; discriminate|cbn; tauto]]|].
  destruct (@runs_repeat Reference.host Scenario.example "octocat" "username"
              Scenario.three Scenario.fresh
              (snd (performSearch Scenario.example "octocat" "username"
                      Scenario.three Scenario.fresh)) Hsteady)
    as (rs1 & m1' & rs2 & m2' & H1 & H2 & Hsame);
    [vm_compute; discriminate|cbn; tauto|].
  exists rs1, rs2, m2'. split; [rewrite H1; reflexivity|].
  split; [exact H2|exact Hsame].
Defined.

(** ** What a run reports, logs and stamps *)

Section Reports.

Context {host : Host}.
Variable world : World.

Lemma Turns_progress query type total n k done platforms rs events :
  Turns world query type total n k done platforms rs events ->
  filter is_progress events = announcements total done platforms.
Proof.
  induction 1 as [|n k done p platforms r console rs events H0 _ IH];
    [reflexivity|].
  rewrite filter_app, IH. cbn [announcements].
  apply searched_inv in H0 as [(-> & _)|(message & _ & -> & _)]; reflexivity.
Qed.

Lemma Turns_console query type total n k done platforms rs events :
  Turns world query type total n k done platforms rs events ->
  length (filter is_console events)
  = length (filter (fun r => Status_eqb (status r) Error) rs).
Proof.
  induction 1 as [|n k done p platforms r console rs events H0 _ IH];
    [reflexivity|].
  rewrite filter_app, length_app, IH.
  apply searched_inv in H0 as [(-> & _ & Hstatus & _)|(message & _ & -> & ->)].
  - cbn. destruct (status r); try reflexivity. contradiction.
  - reflexivity.
Qed.

Lemma Turns_timestamps query type total n k done platforms rs events :
  Turns world query type total n k done platforms rs events ->
  forall i r, nth_error rs i = Some r -> timestamp r = now world (k + i).
Proof.
  induction 1 as [|n k done p platforms r0 console rs events H0 _ IH];
    intros i r Hr.
  - destruct i; discriminate.
  - destruct i as [|i]; cbn in Hr.
    + injection Hr as <-. rewrite Nat.add_0_r.
      apply searched_inv in H0 as [(_ & _ & _ & _ & Ht)|(message & _ & _ & ->)];
        [exact Ht|reflexivity].
    + rewrite <- Nat.add_succ_comm. apply IH. exact Hr.
Qed.

(** X16. The progress reports of a run are the initial one, then for every
    platform in turn ["Searching <platform>..."] and ["Searched k/n
    platforms"], and the final one: [k] counts the platforms gone through,
    whether their search succeeded or failed. *)
Theorem progress_reports query type platforms m :
  trim query <> "" -> In type search_types ->
  exists rs m' events,
    performSearch world query type platforms m = (Normal rs, m')
    /\ trace m' = (trace m ++ events)%list
    /\ filter is_progress events
       = (Progress "Initializing search..." 0%Q
            :: announcements (length platforms) 0 platforms
            ++ [Progress "Search completed!" 100%Q])%list.
Proof.
  intros Hquery Htype.
  destruct (performSearch_returns world query type platforms m Hquery Htype)
    as (rs & events & m' & Hrun & Hturns & _ & _ & _ & Htrace).
  exists rs, m'. eexists. split; [exact Hrun|]. split; [exact Htrace|].
  cbn [filter is_progress]. rewrite filter_app. cbn [filter is_progress].
  rewrite (Turns_progress _ _ _ _ _ _ _ _ _ Hturns). reflexivity.
Qed.

(** X17. A run writes to the console once for every error result and not
    otherwise: the number of [console.error] calls is the number of results
    whose status is ['error']. *)
Theorem console_errors_match_error_results query type platforms m :
  trim query <> "" -> In type search_types ->
  exists rs m' events,
    performSearch world query type platforms m = (Normal rs, m')
    /\ trace m' = (trace m ++ events)%list
    /\ length (filter is_console events)
       = length (filter (fun r => Status_eqb (status r) Error) rs).
Proof.
  intros Hquery Htype.
  destruct (performSearch_returns world query type platforms m Hquery Htype)
    as (rs & events & m' & Hrun & Hturns & _ & _ & _ & Htrace).
  exists rs, m'. eexists. split; [exact Hrun|]. split; [exact Htrace|].
  cbn [filter is_console]. rewrite filter_app. cbn [filter is_console].
  rewrite length_app, Nat.add_0_r.
  eapply Turns_console; eassumption.
Qed.

(** X18. A run reads the clock once for every platform, and the results
    carry these readings in order: the result at index [i] is stamped with
    the [i]-th reading after the run began. *)
Theorem results_are_stamped_in_order query type platforms m :
  trim query <> "" -> In type search_types ->
  exists rs m',
    performSearch world query type platforms m = (Normal rs, m')
    /\ clock_reads m' = clock_reads m + length platforms
    /\ (forall i r, nth_error rs i = Some r ->
          timestamp r = now world (clock_reads m + i)).
Proof.
  intros Hquery Htype.
  destruct (performSearch_returns world query type platforms m Hquery Htype)
    as (rs & events & m' & Hrun & Hturns & _ & _ & Hclock & _).
  exists rs, m'. split; [exact Hrun|]. split; [exact Hclock|].
  eapply Turns_timestamps; eassumption.
Qed.

End Reports.

Lemma progress_reports_example :
  (trim "octocat" <> "" /\ In "username" search_types)
  /\ exists rs m',
       performSearch Scenario.example "octocat" "username"
                     ["github"; "unknown-platform"] Scenario.fresh
       = (Normal rs, m')
       /\ map (fun e => match e with Progress text _ => text | _ => "" end)
              (filter is_progress (trace m'))
          = [ "Initializing search..."; "Searching github...";
              "Searched 1/2 platforms"; "Searching unknown-platform...";
              "Searched 2/2 platforms"; "Search completed!" ].
Proof.
  split; [split; [vm_compute; discriminate|cbn; tauto]|].
  destruct (@progress_reports Reference.host Scenario.example "octocat"
              "username" ["github"; "unknown-platform"] Scenario.fresh)
    as (rs & m' & events & Hrun & Htrace & Hprogress);
    [vm_compute; discriminate|cbn; tauto|].
  exists rs, m'. split; [exact Hrun|].
  rewrite Htrace. cbn [Scenario.fresh trace app]. rewrite Hprogress.
  reflexivity.
Defined.

Lemma console_errors_match_error_results_example :
  (trim "octocat" <> "" /\ In "username" search_types)
  /\ exists rs m',
       performSearch Scenario.example "octocat" "username" Scenario.three
                     Scenario.fresh = (Normal rs, m')
       /\ length (filter is_console (trace m'))
          = length (filter (fun r => Status_eqb (status r) Error) rs).
Proof.
  split; [split; [vm_compute; discriminate|cbn; tauto]|].
  destruct (@console_errors_match_error_results Reference.host Scenario.example
              "octocat" "username" Scenario.three Scenario.fresh)
    as (rs & m' & events & Hrun & Htrace & Hconsole);
    [vm_compute; discriminate|cbn; tauto|].
  exists rs, m'. split; [exact Hrun|].
  rewrite Htrace. exact Hconsole.
Defined.

Lemma results_are_stamped_in_order_example :
  (trim "octocat" <> "" /\ In "username" search_types)
  /\ exists rs m',
       performSearch Scenario.example "octocat" "username" Scenario.three
                     Scenario.fresh = (Normal rs, m')
       /\ clock_reads m' = 3
       /\ (forall i r, nth_error rs i = Some r ->
             timestamp r = Scenario.instant i).
Proof.
  split; [split; [vm_compute; discriminate|cbn; tauto]|].
  destruct (@results_are_stamped_in_order Reference.host Scenario.example
              "octocat" "username" Scenario.three Scenario.fresh)
    as (rs & m' & Hrun & Hclock & Hstamps);
    [vm_compute; discriminate|cbn; tauto|].
  exists rs, m'. auto.
Defined.
